(** * Market Bloom frontend: a shallow embedding of the view logic

    The storefront is a set of React views over an axios client.  This
    development embeds the parts of it that carry behaviour: the search
    filter of the shop lists, the request interceptor and the query
    parameters of [shopAPI.getShops], the zod schemas of the two forms,
    and the event handlers of the views, written in a small monad that
    threads the component state, the browser storage and a trace of
    what the handler did (HTTP calls, toasts, navigation).

    Strings are sequences of code units; the standard library's [string]
    gives the 8-bit ones, which is the range the runtime functions
    modelled below ([toLowerCase], [trim]) are written out for.  Numbers
    are IEEE binary64, the kernel's [float].

    The views embedded are the signup view, the home view with its shop
    dialog, the buyer's dashboard with its search box, the seller's shop
    form, the shop management view and the landing page, over the client
    of src/lib/api.ts.  The login view and the AuthContext are used by
    these views but are not part of the sources; what is said of them is
    marked where they are modelled. *)

From Stdlib Require Import String Ascii List Bool ZArith Lia PrimFloat.
From Stdlib Require Uint63.
From stdpp Require Import base option gmap strings list.

Import ListNotations.
Local Open Scope string_scope.
Local Open Scope list_scope.

(** ** The runtime: what the views use of JavaScript *)

Module JS.

(** [s.length] *)
Definition length (s : string) : nat := String.length s.

(** One code unit of [s.toLowerCase()]: the ASCII capitals and the
    Latin-1 capitals (U+00C0..U+00DE but the multiplication sign) move
    up by 32; every other code unit below 256 is its own lower case. *)
Definition lowerUnit (c : ascii) : ascii :=
  let n := nat_of_ascii c in
  if ((65 <=? n) && (n <=? 90)
      || (192 <=? n) && (n <=? 222) && negb (n =? 215))%nat
  then ascii_of_nat (n + 32) else c.

(** [s.toLowerCase()] *)
Fixpoint toLowerCase (s : string) : string :=
  match s with
  | EmptyString => EmptyString
  | String c r => String (lowerUnit c) (toLowerCase r)
  end.

(** [hay.startsWith(needle)], the test [includes] makes at each
    position. *)
Fixpoint startsWith (hay needle : string) {struct needle} : bool :=
  match needle, hay with
  | EmptyString, _ => true
  | String _ _, EmptyString => false
  | String a n, String b h => Ascii.eqb a b && startsWith h n
  end.

(** [hay.includes(needle)]: some position of [hay] starts with
    [needle]. *)
Fixpoint includes (hay needle : string) : bool :=
  startsWith hay needle
  || match hay with
     | EmptyString => false
     | String _ h => includes h needle
     end.

(** White space and line terminators below 256: TAB, LF, VT, FF, CR,
    SP and NBSP. *)
Definition isWhiteSpace (c : ascii) : bool :=
  let n := nat_of_ascii c in
  ((9 <=? n) && (n <=? 13) || (n =? 32) || (n =? 160))%nat.

(** [s.trimStart()] *)
Fixpoint trimStart (s : string) : string :=
  match s with
  | EmptyString => EmptyString
  | String c r => if isWhiteSpace c then trimStart r else s
  end.

(** [s.trimEnd()] *)
Fixpoint trimEnd (s : string) : string :=
  match s with
  | EmptyString => EmptyString
  | String c r =>
      match trimEnd r with
      | EmptyString => if isWhiteSpace c then EmptyString else String c EmptyString
      | r' => String c r'
      end
  end.

(** [s.trim()] *)
Definition trim (s : string) : string := trimEnd (trimStart s).

(** Truthiness of a string: [!!s] is false only for the empty one. *)
Definition truthyString (s : string) : bool :=
  match s with EmptyString => false | String _ _ => true end.

(** Truthiness of a number: [!!x] is false for [0], [-0] and [NaN]. *)
Definition truthyNumber (x : float) : bool :=
  negb (PrimFloat.is_nan x || PrimFloat.is_zero x).

(** [isNaN(x)] *)
Definition isNaN (x : float) : bool := PrimFloat.is_nan x.

(** [hay] holds [needle] as a substring: the words of the description
    of the search, against which [includes] is compared. *)
Definition substring_of (needle hay : string) : Prop :=
  exists pre post, hay = (pre ++ needle ++ post)%string.

End JS.

(** ** The API client (src/lib/api.ts) *)

Module User.
Record t := { id : string; name : string; email : string; userType : string }.
End User.

Module SignupData.
Record t := { name : string; email : string; password : string; userType : string }.
End SignupData.

Module LoginData.
Record t := { email : string; password : string }.
End LoginData.

Module Product.
(** [_id] is the optional field the Home and ShopManagement views add
    to the interface of api.ts. *)
Record t := { _id : option string; name : string; price : float; category : string }.
End Product.

Module ShopData.
Record t := { shopName : string; location : string; products : list Product.t }.
End ShopData.

Module AuthResponse.
Record t := { token : string; user : User.t }.
End AuthResponse.

Module Review.
Record t := {
  _id : option string;
  shopId : string;
  userId : string;
  userName : string;
  rating : float;
  comment : string;
  createdAt : option string }.
End Review.

(** [Omit<Review, '_id' | 'createdAt'>], the body of [addReview]. *)
Module NewReview.
Record t := {
  shopId : string;
  userId : string;
  userName : string;
  rating : float;
  comment : string }.
End NewReview.

(** The shop as the views receive it: [ShopData] with the fields the
    [Shop] interfaces of the views read. *)
Module Shop.
Record t := {
  _id : string;
  shopName : string;
  location : string;
  products : list Product.t;
  owner : string;
  averageRating : option float;
  reviewCount : option float }.
End Shop.

(** What a rejected promise carries: [error.response?.status] and
    [error.response?.data?.message]. *)
Module Error.
Record t := { status : option nat; message : option string }.
End Error.

(** The functions of the runtime and of the libraries that the views
    call and whose code is not the repository's. *)
Class Runtime := {
  (** [jwtDecode<JWTPayload>(token).user]; [None] when it throws *)
  jwtDecode : string -> option User.t;
  (** [parseFloat(s)] *)
  parseFloat : string -> float;
  (** [Number(s)], the coercion of [z.coerce.number()] *)
  Number : string -> float;
  (** the test behind zod's [.email()] *)
  isEmail : string -> bool;
  (** the answer to [confirm(message)] *)
  confirm : string -> bool }.

Module Api.

Inductive Method := GET | POST | PUT | DELETE.

Inductive param := Str (s : string) | Num (x : float).

Inductive body :=
| NoBody
| Signup (d : SignupData.t)
| Login (d : LoginData.t)
| NewShop (d : ShopData.t)
| NewProduct (p : Product.t)
| AddReview (r : NewReview.t).

(** The axios request config. *)
Record config := {
  method : Method;
  url : string;
  headers : gmap string string;
  params : gmap string param;
  data : body }.

(** [axios.create({ baseURL, headers: { 'Content-Type': ... } })] *)
Definition API_URL : string := "http://localhost:5000/api".

Definition defaults : gmap string string :=
  {[ "Content-Type" := "application/json" ]}.

(** [api.interceptors.request.use(...)]: add the token to the request
    if available. *)
Definition interceptor (localStorage : gmap string string) (c : config) : config :=
  match localStorage !! "token" with
  | Some token =>
      if JS.truthyString token
      then {| method := method c; url := url c;
              headers := <["x-auth-token" := token]> (headers c);
              params := params c; data := data c |}
      else c
  | None => c
  end.

(** [api.get(url, { params })], [api.post(url, data)], ... before the
    interceptor runs. *)
Definition get (u : string) (ps : gmap string param) : config :=
  {| method := GET; url := u; headers := defaults; params := ps; data := NoBody |}.
Definition post (u : string) (b : body) : config :=
  {| method := POST; url := u; headers := defaults; params := ∅; data := b |}.
Definition put (u : string) (b : body) : config :=
  {| method := PUT; url := u; headers := defaults; params := ∅; data := b |}.
Definition delete (u : string) : config :=
  {| method := DELETE; url := u; headers := defaults; params := ∅; data := NoBody |}.

(** The query parameters [shopAPI.getShops] builds. *)
Definition getShops_params (location : option string) (latitude longitude : option float)
  : gmap string param :=
  let params : gmap string param := ∅ in
  let params :=
    match location with
    | Some l => if JS.truthyString l then <["location" := Str l]> params else params
    | None => params
    end in
  match latitude, longitude with
  | Some lat, Some lng =>
      if JS.truthyNumber lat && JS.truthyNumber lng
      then <["lng" := Num lng]> (<["lat" := Num lat]> params)
      else params
  | _, _ => params
  end.

End Api.

(** ** The part of zod the two schemas use *)

Module Zod.

(** An issue is what a failed check reports: the message the schema
    gives, or zod's own for a value of the wrong type. *)
Inductive issue :=
| Custom (message : string)
| InvalidType
| InvalidEnumValue.

(** A check returns the parsed value with the issues found; the parse
    succeeds when there are none. *)
Definition checked (O : Type) : Type := O * list issue.

Inductive SafeParse (O : Type) :=
| Success (data : O)
| Failure (issues : list issue).
Arguments Success {O} data.
Arguments Failure {O} issues.

Definition safeParse {I O} (schema : I -> checked O) (input : I) : SafeParse O :=
  match schema input with
  | (d, []) => Success d
  | (_, i :: rest) => Failure (i :: rest)
  end.

(** [z.string().min(n, message)] *)
Definition string_min (n : nat) (message : string) (s : string) : checked string :=
  (s, if (n <=? JS.length s)%nat then [] else [Custom message]).

(** [z.string().email(message)] *)
Definition string_email `{Runtime} (message : string) (s : string) : checked string :=
  (s, if isEmail s then [] else [Custom message]).

(** [z.enum(options, { required_error })]; the value is [None] when
    the field is undefined. *)
Definition enum (options : list string) (required_error : string) (v : option string)
  : checked string :=
  match v with
  | None => (EmptyString, [Custom required_error])
  | Some x => (x, if existsb (String.eqb x) options then [] else [InvalidEnumValue])
  end.

(** [z.coerce.number().positive(message)]: [Number(input)] is not a
    number when it is NaN, and positive when it is above zero. *)
Definition coerce_number_positive `{Runtime} (message : string) (input : string)
  : checked float :=
  let x := Number input in
  (x, if JS.isNaN x then [InvalidType]
      else if PrimFloat.ltb 0 x then [] else [Custom message]).

(** [z.array(element).min(n, message)]: the issues of the elements,
    then the one of the length. *)
Definition array_min {I O} (element : I -> checked O) (n : nat) (message : string)
  (l : list I) : checked (list O) :=
  (map (fun i => fst (element i)) l,
   flat_map (fun i => snd (element i)) l
   ++ (if (n <=? List.length l)%nat then [] else [Custom message])).

End Zod.

(** ** What a handler does: state, storage, and a trace *)

Inductive event :=
| Request (c : Api.config)            (** an HTTP call leaves the client *)
| ToastSuccess (message : string)
| ToastError (message : string)
| Navigate (to : string)
| SetState (field : string)           (** a [useState] setter is called *)
| FormErrors (issues : list Zod.issue) (** the form shows its errors *)
| FormReset
| StoreSession (token : string) (u : User.t). (** the session is stored *)

Inductive result (A : Type) := Ok (a : A) | Err (e : Error.t).
Arguments Ok {A} a.
Arguments Err {A} e.

(** The backend, by the shape of what each resource answers; the
    number is how many calls it has answered before this one. *)
Record Backend := {
  auth : nat -> Api.config -> result string;
  shops : nat -> Api.config -> result (list Shop.t);
  myShop : nat -> Api.config -> result (option Shop.t);
  reviews : nat -> Api.config -> result (list Review.t);
  ack : nat -> Api.config -> result unit }.

Record world := {
  localStorage : gmap string string;
  isAuthenticated : bool;
  user : option User.t;
  backend : Backend;
  trace : list event }.

(** The requests of a trace, in the order they were sent. *)
Fixpoint requests (tr : list event) : list Api.config :=
  match tr with
  | [] => []
  | Request c :: r => c :: requests r
  | _ :: r => requests r
  end.

Definition record (e : event) (w : world) : world :=
  {| localStorage := localStorage w; isAuthenticated := isAuthenticated w;
     user := user w; backend := backend w; trace := trace w ++ [e] |}.

(** A handler runs over the state [S] of its component and the world,
    and returns or throws. *)
Inductive outcome (A : Type) := Returned (a : A) | Thrown (e : Error.t).
Arguments Returned {A} a.
Arguments Thrown {A} e.

Definition M (S A : Type) : Type := S -> world -> outcome A * S * world.

Definition ret {S A} (a : A) : M S A := fun s w => (Returned a, s, w).

Definition bind {S A B} (m : M S A) (k : A -> M S B) : M S B :=
  fun s w =>
    match m s w with
    | (Returned a, s', w') => k a s' w'
    | (Thrown e, s', w') => (Thrown e, s', w')
    end.

#[global] Instance M_ret {S} : MRet (M S) := fun A a => ret a.
#[global] Instance M_bind {S} : MBind (M S) := fun A B k m => bind m k.

Definition throw {S A} (e : Error.t) : M S A := fun s w => (Thrown e, s, w).

(** [try { body } catch (error) { handler } finally { final }] *)
Definition try_catch_finally {S A} (body : M S A) (handler : Error.t -> M S A)
  (final : M S unit) : M S A :=
  fun s w =>
    let '(o, s1, w1) :=
      match body s w with
      | (Thrown e, s', w') => handler e s' w'
      | r => r
      end in
    match final s1 w1 with
    | (Returned _, s2, w2) => (o, s2, w2)
    | (Thrown e, s2, w2) => (Thrown e, s2, w2)
    end.

Definition try_catch {S A} (body : M S A) (handler : Error.t -> M S A) : M S A :=
  fun s w =>
    match body s w with
    | (Thrown e, s', w') => handler e s' w'
    | r => r
    end.

Definition emit {S} (e : event) : M S unit :=
  fun s w => (Returned tt, s, record e w).

(** A [useState] setter. *)
Definition set {S} (field : string) (f : S -> S) : M S unit :=
  fun s w => (Returned tt, f s, record (SetState field) w).

Definition getWorld {S} : M S world := fun s w => (Returned w, s, w).
Definition getState {S} : M S S := fun s w => (Returned s, s, w).

Definition toast_success {S} (message : string) : M S unit := emit (ToastSuccess message).
Definition toast_error {S} (message : string) : M S unit := emit (ToastError message).
Definition navigate {S} (to : string) : M S unit := emit (Navigate to).

(** [error.response?.data?.message || fallback] *)
Definition message_or (e : Error.t) (fallback : string) : string :=
  match Error.message e with
  | Some m => if JS.truthyString m then m else fallback
  | None => fallback
  end.

(** Sending a request: the interceptor runs on the config, the request
    leaves, and the backend's answer resolves or rejects the promise. *)
Definition send {S A} (answer : Backend -> nat -> Api.config -> result A)
  (c : Api.config) : M S A :=
  fun s w =>
    let c' := Api.interceptor (localStorage w) c in
    match answer (backend w) (List.length (requests (trace w))) c' with
    | Ok a => (Returned a, s, record (Request c') w)
    | Err e => (Thrown e, s, record (Request c') w)
    end.

(** What [jwtDecode] throws has no [response]. *)
Definition InvalidTokenError : Error.t := {| Error.status := None; Error.message := None |}.

Module authAPI.
Section WithRuntime.
Context `{Runtime} {S : Type}.

Definition signup (data : SignupData.t) : M S AuthResponse.t :=
  token ← send auth (Api.post "/auth/signup" (Api.Signup data));
  match jwtDecode token with
  | Some decoded_user => mret {| AuthResponse.token := token; AuthResponse.user := decoded_user |}
  | None => throw InvalidTokenError
  end.

Definition login (data : LoginData.t) : M S AuthResponse.t :=
  token ← send auth (Api.post "/auth/login" (Api.Login data));
  match jwtDecode token with
  | Some decoded_user => mret {| AuthResponse.token := token; AuthResponse.user := decoded_user |}
  | None => throw InvalidTokenError
  end.
End WithRuntime.
End authAPI.

Module shopAPI.
Section WithState.
Context {S : Type}.

Definition getShops (location : option string) (latitude longitude : option float)
  : M S (list Shop.t) :=
  send shops (Api.get "/shop" (Api.getShops_params location latitude longitude)).

Definition createShop (data : ShopData.t) : M S unit :=
  send ack (Api.post "/shop" (Api.NewShop data)).

Definition updateShop (shopId : string) (data : ShopData.t) : M S unit :=
  send ack (Api.put ("/shop/" ++ shopId) (Api.NewShop data)).

Definition deleteShop (shopId : string) : M S unit :=
  send ack (Api.delete ("/shop/" ++ shopId)).

Definition getMyShop : M S (option Shop.t) :=
  send myShop (Api.get "/shop/my-shop" ∅).

Definition addProduct (shopId : string) (product : Product.t) : M S unit :=
  send ack (Api.post ("/shop/" ++ shopId ++ "/products") (Api.NewProduct product)).

Definition updateProduct (shopId productId : string) (product : Product.t) : M S unit :=
  send ack (Api.put ("/shop/" ++ shopId ++ "/products/" ++ productId)
                    (Api.NewProduct product)).

Definition deleteProduct (shopId productId : string) : M S unit :=
  send ack (Api.delete ("/shop/" ++ shopId ++ "/products/" ++ productId)).
End WithState.
End shopAPI.

Module reviewAPI.
Section WithState.
Context {S : Type}.

Definition getReviews (shopId : string) : M S (list Review.t) :=
  send reviews (Api.get ("/reviews/" ++ shopId) ∅).

Definition addReview (data : NewReview.t) : M S unit :=
  send ack (Api.post "/reviews" (Api.AddReview data)).

Definition deleteReview (reviewId : string) : M S unit :=
  send ack (Api.delete ("/reviews/" ++ reviewId)).
End WithState.
End reviewAPI.

(** ** The session (contexts/AuthContext) *)

Module AuthContext.

(** Modelled from the spec: [login] of the AuthContext, which is not
    under src/.  "Session: the authenticated user's identity and
    token, held in memory and persisted to local storage."  The token
    goes under the key the interceptor reads; the user is held in
    memory. *)
Definition login {S} (token : string) (u : User.t) : M S unit :=
  fun s w =>
    (Returned tt, s,
     {| localStorage := <["token" := token]> (localStorage w);
        isAuthenticated := true;
        user := Some u;
        backend := backend w;
        trace := trace w ++ [StoreSession token u] |}).

End AuthContext.

(** [handleSubmit(onSubmit)] of react-hook-form with a zod resolver:
    the handler runs on the parsed data, or the form shows the issues. *)
Definition handleSubmit {S I O} (schema : I -> Zod.checked O) (onSubmit : O -> M S unit)
  (input : I) : M S unit :=
  match Zod.safeParse schema input with
  | Zod.Success data => onSubmit data
  | Zod.Failure issues => emit (FormErrors issues)
  end.

(** The route a user is sent to, [userType === 'seller' ? '/seller' : '/buyer']. *)
Definition dashboard (u : User.t) : string :=
  if String.eqb (User.userType u) "seller" then "/seller" else "/buyer".

(** ** The signup view *)

Module Signup.

Module Form.
Record t := {
  name : string;
  email : string;
  password : string;
  userType : option string }.
End Form.

Record State := { isLoading : bool }.

Section WithRuntime.
Context `{Runtime}.

Definition signupSchema (input : Form.t) : Zod.checked SignupData.t :=
  let name := Zod.string_min 2 "Name must be at least 2 characters" (Form.name input) in
  let email := Zod.string_email "Invalid email address" (Form.email input) in
  let password :=
    Zod.string_min 6 "Password must be at least 6 characters" (Form.password input) in
  let userType := Zod.enum ["buyer"; "seller"] "Please select a role" (Form.userType input) in
  ({| SignupData.name := fst name;
      SignupData.email := fst email;
      SignupData.password := fst password;
      SignupData.userType := fst userType |},
   snd name ++ snd email ++ snd password ++ snd userType).

Definition onSubmit (data : SignupData.t) : M State unit :=
  set "isLoading" (fun _ => {| isLoading := true |});;
  try_catch_finally
    (response ← authAPI.signup data;
     AuthContext.login (AuthResponse.token response) (AuthResponse.user response);;
     toast_success "Account created successfully!";;
     navigate (dashboard (AuthResponse.user response)))
    (fun error => toast_error (message_or error "Signup failed. Please try again."))
    (set "isLoading" (fun _ => {| isLoading := false |})).

(** [<form onSubmit={handleSubmit(onSubmit)}>] *)
Definition submit : Form.t -> M State unit := handleSubmit signupSchema onSubmit.
End WithRuntime.

(** The form before the visitor touches it: the inputs are empty and
    [defaultValues] gives the role. *)
Definition defaultValues : Form.t :=
  {| Form.name := ""; Form.email := ""; Form.password := "";
     Form.userType := Some "buyer" |}.

(** The values of the two [RadioGroupItem]s. *)
Definition roles : list string := ["buyer"; "seller"].

(** What the visitor can do to the form: type in a registered input,
    or pick the k-th radio item, whose [onValueChange] sets the role. *)
Inductive edit :=
| TypeName (text : string)
| TypeEmail (text : string)
| TypePassword (text : string)
| SelectRole (k : nat).

Definition apply_edit (f : Form.t) (e : edit) : Form.t :=
  match e with
  | TypeName text =>
      {| Form.name := text; Form.email := Form.email f;
         Form.password := Form.password f; Form.userType := Form.userType f |}
  | TypeEmail text =>
      {| Form.name := Form.name f; Form.email := text;
         Form.password := Form.password f; Form.userType := Form.userType f |}
  | TypePassword text =>
      {| Form.name := Form.name f; Form.email := Form.email f;
         Form.password := text; Form.userType := Form.userType f |}
  | SelectRole k =>
      match nth_error roles k with
      | Some value =>
          {| Form.name := Form.name f; Form.email := Form.email f;
             Form.password := Form.password f; Form.userType := Some value |}
      | None => f
      end
  end.

(** The form after a sequence of edits. *)
Definition edited (edits : list edit) : Form.t := fold_left apply_edit edits defaultValues.

End Signup.

(** ** The login view *)

Module Login.

Record State := { isLoading : bool }.

Section WithRuntime.
Context `{Runtime}.

(** Modelled from the spec: [onSubmit] of the login view, which is
    not under src/.  "Auth views (signup/login): collect
    credentials, validate client-side, call an auth endpoint, store
    a returned token/session, redirect by role."  It follows the
    signup view, with [authAPI.login] of api.ts as the endpoint. *)
Definition onSubmit (data : LoginData.t) : M State unit :=
  set "isLoading" (fun _ => {| isLoading := true |});;
  try_catch_finally
    (response ← authAPI.login data;
     AuthContext.login (AuthResponse.token response) (AuthResponse.user response);;
     toast_success "Logged in successfully!";;
     navigate (dashboard (AuthResponse.user response)))
    (fun error => toast_error (message_or error "Login failed. Please try again."))
    (set "isLoading" (fun _ => {| isLoading := false |})).
End WithRuntime.

End Login.

(** ** The landing page (src/pages/Index.tsx, first component) *)

Module Index.

(** The effect of the page: an authenticated user is redirected. *)
Definition redirect : M unit unit :=
  w ← getWorld;
  match isAuthenticated w, user w with
  | true, Some u => navigate (dashboard u)
  | _, _ => mret tt
  end.

End Index.

(** ** The seller's shop form (the SellerDashboard view) *)

Module SellerDashboard.

Module ProductForm.
(** The price is the text of the number input; the schema coerces it. *)
Record t := { name : string; price : string; category : string }.
End ProductForm.

Module Form.
Record t := { shopName : string; location : string; products : list ProductForm.t }.
End Form.

Record State := { isLoading : bool }.

Section WithRuntime.
Context `{Runtime}.

Definition productSchema (input : ProductForm.t) : Zod.checked Product.t :=
  let name := Zod.string_min 1 "Product name is required" (ProductForm.name input) in
  let price := Zod.coerce_number_positive "Price must be positive" (ProductForm.price input) in
  let category := Zod.string_min 1 "Category is required" (ProductForm.category input) in
  ({| Product._id := None;
      Product.name := fst name;
      Product.price := fst price;
      Product.category := fst category |},
   snd name ++ snd price ++ snd category).

Definition shopSchema (input : Form.t) : Zod.checked ShopData.t :=
  let shopName :=
    Zod.string_min 2 "Shop name must be at least 2 characters" (Form.shopName input) in
  let location := Zod.string_min 2 "Location is required" (Form.location input) in
  let products :=
    Zod.array_min productSchema 1 "At least one product is required" (Form.products input) in
  ({| ShopData.shopName := fst shopName;
      ShopData.location := fst location;
      ShopData.products := fst products |},
   snd shopName ++ snd location ++ snd products).

Definition onSubmit (data : ShopData.t) : M State unit :=
  set "isLoading" (fun _ => {| isLoading := true |});;
  try_catch_finally
    (shopAPI.createShop data;;
     toast_success "Shop created successfully!";;
     emit FormReset)
    (fun error => toast_error (message_or error "Failed to create shop"))
    (set "isLoading" (fun _ => {| isLoading := false |})).

(** [<form onSubmit={handleSubmit(onSubmit)}>] *)
Definition submit : Form.t -> M State unit := handleSubmit shopSchema onSubmit.
End WithRuntime.

(** The product row of [defaultValues] and of [append]: the price 0
    is the text of the number input. *)
Definition emptyProduct : ProductForm.t :=
  {| ProductForm.name := ""; ProductForm.price := "0"; ProductForm.category := "" |}.

Definition defaultValues : Form.t :=
  {| Form.shopName := ""; Form.location := ""; Form.products := [emptyProduct] |}.

(** What the seller can do to the form: type in a registered input of
    the shop or of the k-th product row, add a row, or remove the k-th
    row, whose button is rendered while there is more than one row. *)
Inductive edit :=
| TypeShopName (text : string)
| TypeLocation (text : string)
| TypeProductName (k : nat) (text : string)
| TypeProductPrice (k : nat) (text : string)
| TypeProductCategory (k : nat) (text : string)
| Append
| Remove (k : nat).

Definition withProducts (f : Form.t) (ps : list ProductForm.t) : Form.t :=
  {| Form.shopName := Form.shopName f; Form.location := Form.location f;
     Form.products := ps |}.

Definition apply_edit (f : Form.t) (e : edit) : Form.t :=
  match e with
  | TypeShopName text =>
      {| Form.shopName := text; Form.location := Form.location f;
         Form.products := Form.products f |}
  | TypeLocation text =>
      {| Form.shopName := Form.shopName f; Form.location := text;
         Form.products := Form.products f |}
  | TypeProductName k text =>
      withProducts f
        (alter (fun p => {| ProductForm.name := text; ProductForm.price := ProductForm.price p;
                            ProductForm.category := ProductForm.category p |})
               k (Form.products f))
  | TypeProductPrice k text =>
      withProducts f
        (alter (fun p => {| ProductForm.name := ProductForm.name p; ProductForm.price := text;
                            ProductForm.category := ProductForm.category p |})
               k (Form.products f))
  | TypeProductCategory k text =>
      withProducts f
        (alter (fun p => {| ProductForm.name := ProductForm.name p;
                            ProductForm.price := ProductForm.price p;
                            ProductForm.category := text |})
               k (Form.products f))
  | Append => withProducts f (Form.products f ++ [emptyProduct])
  | Remove k =>
      (* fields.length > 1 && <Button onClick={() => remove(index)}> *)
      if (1 <? List.length (Form.products f))%nat
      then withProducts f (delete k (Form.products f))
      else f
  end.

(** The form after a sequence of edits. *)
Definition edited (edits : list edit) : Form.t := fold_left apply_edit edits defaultValues.

End SellerDashboard.

(** ** What the shop lists render *)

(** The list area of the home view and of the buyer's dashboard: the
    skeleton while loading, a card that says why the list is empty, or
    the grid of shop cards. *)
Inductive ListArea :=
| Skeleton
| EmptyCard (heading text : string)
| Grid (cards : list Shop.t).

Module ShopCard.

(** [shop.products.slice(0, 3)], the products a card lists. *)
Definition shownProducts (shop : Shop.t) : list Product.t :=
  firstn 3 (Shop.products shop).

(** [shop.products.length > 3 && ...]: the line "+N more products",
    with its N, when there is one. *)
Definition moreProducts (shop : Shop.t) : option nat :=
  if (3 <? List.length (Shop.products shop))%nat
  then Some (List.length (Shop.products shop) - 3)%nat
  else None.

End ShopCard.

(** ** The buyer's dashboard (src/pages/BuyerDashboard.tsx) *)

Module BuyerDashboard.

Record State := {
  shops : list Shop.t;
  isLoading : bool;
  searchQuery : string }.

Definition filteredShops (st : State) : list Shop.t :=
  List.filter
    (fun shop =>
       let query := JS.toLowerCase (searchQuery st) in
       JS.includes (JS.toLowerCase (Shop.shopName shop)) query
       || JS.includes (JS.toLowerCase (Shop.location shop)) query
       || existsb
            (fun product =>
               JS.includes (JS.toLowerCase (Product.name product)) query
               || JS.includes (JS.toLowerCase (Product.category product)) query)
            (Shop.products shop))
    (shops st).

Definition setShops (v : list Shop.t) : M State unit :=
  set "shops" (fun s =>
    {| shops := v; isLoading := isLoading s; searchQuery := searchQuery s |}).

Definition setIsLoading (v : bool) : M State unit :=
  set "isLoading" (fun s =>
    {| shops := shops s; isLoading := v; searchQuery := searchQuery s |}).

Definition setSearchQuery (v : string) : M State unit :=
  set "searchQuery" (fun s =>
    {| shops := shops s; isLoading := isLoading s; searchQuery := v |}).

Definition fetchShops : M State unit :=
  try_catch_finally
    (data ← shopAPI.getShops None None None;
     setShops data)
    (fun _ => toast_error "Failed to fetch shops")
    (setIsLoading false).

Definition render (st : State) : ListArea :=
  if isLoading st then Skeleton
  else if (List.length (filteredShops st) =? 0)%nat then
    EmptyCard
      (if (List.length (shops st) =? 0)%nat
       then "No shops yet" else "No matching shops found")
      (if (List.length (shops st) =? 0)%nat
       then "Check back soon for new shops and products!"
       else "Try adjusting your search terms")
  else Grid (filteredShops st).

End BuyerDashboard.

(** ** The home view, with the shop dialog and its review form *)

Module Home.

Record State := {
  shops : list Shop.t;
  isLoading : bool;
  searchQuery : string;
  locationQuery : string;
  selectedShop : option Shop.t;
  reviews : list Review.t;
  reviewText : string;
  rating : float;
  isSubmittingReview : bool }.

(** The [useState] initial values. *)
Definition initial : State :=
  {| shops := []; isLoading := true; searchQuery := ""; locationQuery := "";
     selectedShop := None; reviews := []; reviewText := ""; rating := 5;
     isSubmittingReview := false |}.

Definition setShops (v : list Shop.t) : M State unit :=
  set "shops" (fun s =>
    {| shops := v; isLoading := isLoading s; searchQuery := searchQuery s;
       locationQuery := locationQuery s; selectedShop := selectedShop s;
       reviews := reviews s; reviewText := reviewText s; rating := rating s;
       isSubmittingReview := isSubmittingReview s |}).

Definition setIsLoading (v : bool) : M State unit :=
  set "isLoading" (fun s =>
    {| shops := shops s; isLoading := v; searchQuery := searchQuery s;
       locationQuery := locationQuery s; selectedShop := selectedShop s;
       reviews := reviews s; reviewText := reviewText s; rating := rating s;
       isSubmittingReview := isSubmittingReview s |}).

Definition setSearchQuery (v : string) : M State unit :=
  set "searchQuery" (fun s =>
    {| shops := shops s; isLoading := isLoading s; searchQuery := v;
       locationQuery := locationQuery s; selectedShop := selectedShop s;
       reviews := reviews s; reviewText := reviewText s; rating := rating s;
       isSubmittingReview := isSubmittingReview s |}).

Definition setLocationQuery (v : string) : M State unit :=
  set "locationQuery" (fun s =>
    {| shops := shops s; isLoading := isLoading s; searchQuery := searchQuery s;
       locationQuery := v; selectedShop := selectedShop s;
       reviews := reviews s; reviewText := reviewText s; rating := rating s;
       isSubmittingReview := isSubmittingReview s |}).

Definition setSelectedShop (v : option Shop.t) : M State unit :=
  set "selectedShop" (fun s =>
    {| shops := shops s; isLoading := isLoading s; searchQuery := searchQuery s;
       locationQuery := locationQuery s; selectedShop := v;
       reviews := reviews s; reviewText := reviewText s; rating := rating s;
       isSubmittingReview := isSubmittingReview s |}).

Definition setReviews (v : list Review.t) : M State unit :=
  set "reviews" (fun s =>
    {| shops := shops s; isLoading := isLoading s; searchQuery := searchQuery s;
       locationQuery := locationQuery s; selectedShop := selectedShop s;
       reviews := v; reviewText := reviewText s; rating := rating s;
       isSubmittingReview := isSubmittingReview s |}).

Definition setReviewText (v : string) : M State unit :=
  set "reviewText" (fun s =>
    {| shops := shops s; isLoading := isLoading s; searchQuery := searchQuery s;
       locationQuery := locationQuery s; selectedShop := selectedShop s;
       reviews := reviews s; reviewText := v; rating := rating s;
       isSubmittingReview := isSubmittingReview s |}).

Definition setRating (v : float) : M State unit :=
  set "rating" (fun s =>
    {| shops := shops s; isLoading := isLoading s; searchQuery := searchQuery s;
       locationQuery := locationQuery s; selectedShop := selectedShop s;
       reviews := reviews s; reviewText := reviewText s; rating := v;
       isSubmittingReview := isSubmittingReview s |}).

Definition setIsSubmittingReview (v : bool) : M State unit :=
  set "isSubmittingReview" (fun s =>
    {| shops := shops s; isLoading := isLoading s; searchQuery := searchQuery s;
       locationQuery := locationQuery s; selectedShop := selectedShop s;
       reviews := reviews s; reviewText := reviewText s; rating := rating s;
       isSubmittingReview := v |}).

(** The handlers close over the state of the render they belong to:
    [c] is that state, and the setters act on the current one. *)

Definition fetchShops (c : State) : M State unit :=
  try_catch_finally
    (setIsLoading true;;
     data ← shopAPI.getShops (Some (locationQuery c)) None None;
     setShops data)
    (fun _ => toast_error "Failed to fetch shops")
    (setIsLoading false).

Definition fetchNearbyShops (lat lng : float) : M State unit :=
  try_catch_finally
    (setIsLoading true;;
     data ← shopAPI.getShops None (Some lat) (Some lng);
     setShops data)
    (fun _ => toast_error "Failed to fetch nearby shops")
    (setIsLoading false).

(** What [navigator.geolocation] does when asked for the position. *)
Inductive geolocation :=
| Unsupported
| Denied
| Position (latitude longitude : float).

Definition handleUseMyLocation (geo : geolocation) : M State unit :=
  match geo with
  | Position latitude longitude =>
      toast_success "Location detected! Showing nearby shops";;
      fetchNearbyShops latitude longitude
  | Denied => toast_error "Unable to access your location"
  | Unsupported => toast_error "Geolocation is not supported by your browser"
  end.

Definition handleShopClick (shop : Shop.t) : M State unit :=
  setSelectedShop (Some shop);;
  try_catch
    (reviewData ← reviewAPI.getReviews (Shop._id shop);
     setReviews reviewData)
    (fun _ => setReviews []).

Definition handleSubmitReview (c : State) : M State unit :=
  w ← getWorld;
  if negb (isAuthenticated w) then
    toast_error "Please login to submit a review";;
    navigate "/login"
  else
    match selectedShop c, user w with
    | Some shop, Some u =>
        if (JS.length (JS.trim (reviewText c)) <? 10)%nat then
          toast_error "Review must be at least 10 characters long"
        else
          try_catch_finally
            (setIsSubmittingReview true;;
             reviewAPI.addReview
               {| NewReview.shopId := Shop._id shop;
                  NewReview.userId := User.id u;
                  NewReview.userName := User.name u;
                  NewReview.rating := rating c;
                  NewReview.comment := JS.trim (reviewText c) |};;
             toast_success "Review submitted successfully!";;
             setReviewText "";;
             setRating 5;;
             (* Refresh reviews *)
             reviewData ← reviewAPI.getReviews (Shop._id shop);
             setReviews reviewData)
            (fun error => toast_error (message_or error "Failed to submit review"))
            (setIsSubmittingReview false)
    | _, _ => mret tt
    end.

Definition filteredShops (st : State) : list Shop.t :=
  List.filter
    (fun shop =>
       let query := JS.toLowerCase (searchQuery st) in
       JS.includes (JS.toLowerCase (Shop.shopName shop)) query
       || JS.includes (JS.toLowerCase (Shop.location shop)) query
       || existsb
            (fun product =>
               JS.includes (JS.toLowerCase (Product.name product)) query
               || JS.includes (JS.toLowerCase (Product.category product)) query)
            (Shop.products shop))
    (shops st).

(** The stars of the rating selector, [[1, 2, 3, 4, 5].map(...)]. *)
Definition stars : list float := [1; 2; 3; 4; 5]%float.

(** The review form is rendered for an authenticated buyer. *)
Definition reviewFormShown (w : world) : bool :=
  isAuthenticated w
  && match user w with
     | Some u => String.eqb (User.userType u) "buyer"
     | None => false
     end.

(** The submit button's [disabled]. *)
Definition submitDisabled (c : State) : bool :=
  isSubmittingReview c || (JS.length (JS.trim (reviewText c)) <? 10)%nat.

(** What the user can do on the page. *)
Inductive action :=
| TypeSearch (text : string)
| TypeLocation (text : string)
| ClickNearby (geo : geolocation)
| ClickShop (k : nat)     (** the k-th card of the filtered list *)
| ClickStar (k : nat)     (** the k-th star of the selector *)
| TypeReview (text : string)
| ClickSubmit.

(** The handler the render of state [c] binds to each action.  The
    location filter is a dependency of the fetching effect, which runs
    again in the render that follows the change. *)
Definition handler (c : State) (a : action) : M State unit :=
  match a with
  | TypeSearch text => setSearchQuery text
  | TypeLocation text =>
      setLocationQuery text;;
      s ← getState;
      fetchShops s
  | ClickNearby geo => handleUseMyLocation geo
  | ClickShop k =>
      match nth_error (filteredShops c) k with
      | Some shop => handleShopClick shop
      | None => mret tt
      end
  | ClickStar k =>
      w ← getWorld;
      match reviewFormShown w, nth_error stars k with
      | true, Some star => setRating star
      | _, _ => mret tt
      end
  | TypeReview text =>
      w ← getWorld;
      if reviewFormShown w then setReviewText text else mret tt
  | ClickSubmit =>
      w ← getWorld;
      if reviewFormShown w && negb (submitDisabled c)
      then handleSubmitReview c
      else mret tt
  end.

Definition dispatch (a : action) : M State unit :=
  fun s w => handler s a s w.

(** The page from its first render on: the effect fetches the shops,
    then the user acts. *)
Fixpoint session (acts : list action) : M State unit :=
  match acts with
  | [] => mret tt
  | a :: rest => try_catch (dispatch a) (fun _ => mret tt);; session rest
  end.

Definition mount : M State unit := fetchShops initial.

Definition render (st : State) : ListArea :=
  if isLoading st then Skeleton
  else if (List.length (filteredShops st) =? 0)%nat then
    EmptyCard
      (if (List.length (shops st) =? 0)%nat
       then "No shops yet" else "No matching shops found")
      (if (List.length (shops st) =? 0)%nat
       then "Check back soon for new shops and products!"
       else "Try adjusting your search terms")
  else Grid (filteredShops st).

(** The stars drawn filled for a rating, [star <= rating], in the
    selector and in the list of reviews. *)
Definition filledStars (r : float) : list float :=
  List.filter (fun star => PrimFloat.leb star r) stars.

End Home.

(** ** The seller's shop management view (src/pages/Index.tsx, second
    component) *)

Module ShopManagement.

Record State := {
  shop : option Shop.t;
  isLoading : bool;
  isCreating : bool;
  shopName : string;
  location : string;
  productName : string;
  productPrice : string;
  productCategory : string;
  editingProduct : option Product.t;
  isAddingProduct : bool }.

Definition initial : State :=
  {| shop := None; isLoading := true; isCreating := false; shopName := "";
     location := ""; productName := ""; productPrice := ""; productCategory := "";
     editingProduct := None; isAddingProduct := false |}.

Definition setShop (v : option Shop.t) : M State unit :=
  set "shop" (fun s =>
    {| shop := v; isLoading := isLoading s; isCreating := isCreating s;
       shopName := shopName s; location := location s; productName := productName s;
       productPrice := productPrice s; productCategory := productCategory s;
       editingProduct := editingProduct s; isAddingProduct := isAddingProduct s |}).

Definition setIsLoading (v : bool) : M State unit :=
  set "isLoading" (fun s =>
    {| shop := shop s; isLoading := v; isCreating := isCreating s;
       shopName := shopName s; location := location s; productName := productName s;
       productPrice := productPrice s; productCategory := productCategory s;
       editingProduct := editingProduct s; isAddingProduct := isAddingProduct s |}).

Definition setIsCreating (v : bool) : M State unit :=
  set "isCreating" (fun s =>
    {| shop := shop s; isLoading := isLoading s; isCreating := v;
       shopName := shopName s; location := location s; productName := productName s;
       productPrice := productPrice s; productCategory := productCategory s;
       editingProduct := editingProduct s; isAddingProduct := isAddingProduct s |}).

Definition setShopName (v : string) : M State unit :=
  set "shopName" (fun s =>
    {| shop := shop s; isLoading := isLoading s; isCreating := isCreating s;
       shopName := v; location := location s; productName := productName s;
       productPrice := productPrice s; productCategory := productCategory s;
       editingProduct := editingProduct s; isAddingProduct := isAddingProduct s |}).

Definition setLocation (v : string) : M State unit :=
  set "location" (fun s =>
    {| shop := shop s; isLoading := isLoading s; isCreating := isCreating s;
       shopName := shopName s; location := v; productName := productName s;
       productPrice := productPrice s; productCategory := productCategory s;
       editingProduct := editingProduct s; isAddingProduct := isAddingProduct s |}).

Definition setProductName (v : string) : M State unit :=
  set "productName" (fun s =>
    {| shop := shop s; isLoading := isLoading s; isCreating := isCreating s;
       shopName := shopName s; location := location s; productName := v;
       productPrice := productPrice s; productCategory := productCategory s;
       editingProduct := editingProduct s; isAddingProduct := isAddingProduct s |}).

Definition setProductPrice (v : string) : M State unit :=
  set "productPrice" (fun s =>
    {| shop := shop s; isLoading := isLoading s; isCreating := isCreating s;
       shopName := shopName s; location := location s; productName := productName s;
       productPrice := v; productCategory := productCategory s;
       editingProduct := editingProduct s; isAddingProduct := isAddingProduct s |}).

Definition setProductCategory (v : string) : M State unit :=
  set "productCategory" (fun s =>
    {| shop := shop s; isLoading := isLoading s; isCreating := isCreating s;
       shopName := shopName s; location := location s; productName := productName s;
       productPrice := productPrice s; productCategory := v;
       editingProduct := editingProduct s; isAddingProduct := isAddingProduct s |}).

Definition setEditingProduct (v : option Product.t) : M State unit :=
  set "editingProduct" (fun s =>
    {| shop := shop s; isLoading := isLoading s; isCreating := isCreating s;
       shopName := shopName s; location := location s; productName := productName s;
       productPrice := productPrice s; productCategory := productCategory s;
       editingProduct := v; isAddingProduct := isAddingProduct s |}).

Definition setIsAddingProduct (v : bool) : M State unit :=
  set "isAddingProduct" (fun s =>
    {| shop := shop s; isLoading := isLoading s; isCreating := isCreating s;
       shopName := shopName s; location := location s; productName := productName s;
       productPrice := productPrice s; productCategory := productCategory s;
       editingProduct := editingProduct s; isAddingProduct := v |}).

Definition fetchMyShop : M State unit :=
  try_catch_finally
    (setIsLoading true;;
     data ← shopAPI.getMyShop;
     setShop data;;
     match data with
     | Some d => setShopName (Shop.shopName d);; setLocation (Shop.location d)
     | None => mret tt
     end)
    (fun error =>
       (* error.response?.status !== 404 *)
       match Error.status error with
       | Some status =>
           if (status =? 404)%nat then mret tt
           else toast_error "Failed to fetch shop details"
       | None => toast_error "Failed to fetch shop details"
       end)
    (setIsLoading false).

Definition handleCreateShop (c : State) : M State unit :=
  if negb (JS.truthyString (JS.trim (shopName c)))
     || negb (JS.truthyString (JS.trim (location c)))
  then toast_error "Please fill in all fields"
  else
    try_catch_finally
      (setIsCreating true;;
       shopAPI.createShop
         {| ShopData.shopName := JS.trim (shopName c);
            ShopData.location := JS.trim (location c);
            ShopData.products := [] |};;
       toast_success "Shop created successfully!";;
       fetchMyShop)
      (fun error => toast_error (message_or error "Failed to create shop"))
      (setIsCreating false).

Definition handleUpdateShop (c : State) : M State unit :=
  match shop c with
  | Some sh =>
      if negb (JS.truthyString (JS.trim (shopName c)))
         || negb (JS.truthyString (JS.trim (location c)))
      then toast_error "Please fill in all fields"
      else
        try_catch
          (shopAPI.updateShop (Shop._id sh)
             {| ShopData.shopName := JS.trim (shopName c);
                ShopData.location := JS.trim (location c);
                ShopData.products := Shop.products sh |};;
           toast_success "Shop updated successfully!";;
           fetchMyShop)
          (fun error => toast_error (message_or error "Failed to update shop"))
  | None => toast_error "Please fill in all fields"
  end.

Section WithRuntime.
Context `{Runtime}.

Definition handleAddProduct (c : State) : M State unit :=
  match shop c with
  | None => mret tt
  | Some sh =>
      if negb (JS.truthyString (JS.trim (productName c)))
         || negb (JS.truthyString (productPrice c))
         || negb (JS.truthyString (JS.trim (productCategory c)))
      then toast_error "Please fill in all product fields"
      else
        let price := parseFloat (productPrice c) in
        if JS.isNaN price || PrimFloat.leb price 0
        then toast_error "Please enter a valid price"
        else
          try_catch_finally
            (setIsAddingProduct true;;
             shopAPI.addProduct (Shop._id sh)
               {| Product._id := None;
                  Product.name := JS.trim (productName c);
                  Product.price := price;
                  Product.category := JS.trim (productCategory c) |};;
             toast_success "Product added successfully!";;
             setProductName "";;
             setProductPrice "";;
             setProductCategory "";;
             fetchMyShop)
            (fun error => toast_error (message_or error "Failed to add product"))
            (setIsAddingProduct false)
  end.

Definition handleUpdateProduct (c : State) : M State unit :=
  match shop c, editingProduct c with
  | Some sh, Some editing =>
      match Product._id editing with
      | Some productId =>
          if JS.truthyString productId then
            if negb (JS.truthyString (JS.trim (productName c)))
               || negb (JS.truthyString (productPrice c))
               || negb (JS.truthyString (JS.trim (productCategory c)))
            then toast_error "Please fill in all product fields"
            else
              let price := parseFloat (productPrice c) in
              if JS.isNaN price || PrimFloat.leb price 0
              then toast_error "Please enter a valid price"
              else
                try_catch
                  (shopAPI.updateProduct (Shop._id sh) productId
                     {| Product._id := None;
                        Product.name := JS.trim (productName c);
                        Product.price := price;
                        Product.category := JS.trim (productCategory c) |};;
                   toast_success "Product updated successfully!";;
                   setEditingProduct None;;
                   setProductName "";;
                   setProductPrice "";;
                   setProductCategory "";;
                   fetchMyShop)
                  (fun error => toast_error (message_or error "Failed to update product"))
          else mret tt
      | None => mret tt
      end
  | _, _ => mret tt
  end.

Definition handleDeleteProduct (c : State) (productId : string) : M State unit :=
  match shop c with
  | None => mret tt
  | Some sh =>
      if negb (confirm "Are you sure you want to delete this product?") then mret tt
      else
        try_catch
          (shopAPI.deleteProduct (Shop._id sh) productId;;
           toast_success "Product deleted successfully!";;
           fetchMyShop)
          (fun error => toast_error (message_or error "Failed to delete product"))
  end.

(** The delete button of a product row,
    [product._id && handleDeleteProduct(product._id)]. *)
Definition deleteClick (c : State) (product : Product.t) : M State unit :=
  match Product._id product with
  | Some productId =>
      if JS.truthyString productId then handleDeleteProduct c productId else mret tt
  | None => mret tt
  end.
End WithRuntime.


(** [startEditingProduct]; [toString] is [Number.prototype.toString]
    of the runtime. *)
Definition startEditingProduct (toString : float -> string) (product : Product.t)
  : M State unit :=
  setEditingProduct (Some product);;
  setProductName (Product.name product);;
  setProductPrice (toString (Product.price product));;
  setProductCategory (Product.category product).

End ShopManagement.

(** ** Reading a run *)

(** The world a page starts in: nothing has happened yet. *)
Definition page (storage : gmap string string) (authenticated : bool)
  (u : option User.t) (b : Backend) : world :=
  {| localStorage := storage; isAuthenticated := authenticated; user := u;
     backend := b; trace := [] |}.

Definition outcome_of {S A} (r : outcome A * S * world) : outcome A := fst (fst r).
Definition state_of {S A} (r : outcome A * S * world) : S := snd (fst r).
Definition world_of {S A} (r : outcome A * S * world) : world := snd r.

(** A call that changes something on the backend. *)
Definition mutating (c : Api.config) : bool :=
  match Api.method c with
  | Api.GET => false
  | _ => true
  end.

(** A setter of a busy flag, the only state a handler touches before
    its call leaves. *)
Definition busyFlag (e : event) : bool :=
  match e with
  | SetState field =>
      existsb (String.eqb field)
        ["isLoading"; "isCreating"; "isAddingProduct"; "isSubmittingReview"]
  | _ => false
  end.

(** What a run added to the trace of the world it started in. *)
Definition added {S A} (w : world) (r : outcome A * S * world) : list event :=
  drop (List.length (trace w)) (trace (world_of r)).

(** One HTTP call before the view state is updated: a mutating call
    that only busy flags precede and no other call follows. *)
Inductive exactly_one_call : list event -> Prop :=
| one_call (pre : list event) (c : Api.config) (post : list event) :
    forallb busyFlag pre = true ->
    mutating c = true ->
    requests post = [] ->
    exactly_one_call (pre ++ Request c :: post).

(** A handler past its guards: the mutating call [c] leaves through the
    interceptor with only busy flags before it; when the backend takes
    it, exactly one more request follows, a GET that fetches the data
    of the view again, and when the backend turns it down no request
    follows. *)
Definition one_call_then_refresh {S A} (w : world) (r : outcome A * S * world)
  (c : Api.config) : Prop :=
  let sent := Api.interceptor (localStorage w) c in
  mutating c = true
  /\ exists pre post,
       added w r = pre ++ Request sent :: post
       /\ forallb busyFlag pre = true
       /\ match ack (backend w) (List.length (requests (trace w))) sent with
          | Ok _ => exists g, requests post = [g] /\ Api.method g = Api.GET
          | Err _ => requests post = []
          end.

(** The headers of a request of the client, as the description words
    them: the default Content-Type alone, and with it the x-auth-token
    when local storage holds a token that is not empty. *)
Definition expectedHeaders (storage : gmap string string) : gmap string string :=
  match storage !! "token" with
  | Some token =>
      if decide (token = "")
      then {[ "Content-Type" := "application/json" ]}
      else <["x-auth-token" := token]> {[ "Content-Type" := "application/json" ]}
  | None => {[ "Content-Type" := "application/json" ]}
  end.

(** A call of the API client adds one request to the trace, and that
    request leaves with the headers [expectedHeaders]. *)
Definition sends_with_expected_headers {S A} (call : M S A) : Prop :=
  forall s w, exists sent,
    added w (call s w) = [Request sent]
    /\ Api.headers sent = expectedHeaders (localStorage w).

(** The signup form as the description words its validity. *)
Definition signupAccepted `{Runtime} (input : Signup.Form.t) : Prop :=
  (2 <= JS.length (Signup.Form.name input))%nat
  /\ isEmail (Signup.Form.email input) = true
  /\ (6 <= JS.length (Signup.Form.password input))%nat
  /\ (Signup.Form.userType input = Some "buyer"
      \/ Signup.Form.userType input = Some "seller").

(** A product of the shop form as the description words its validity:
    a non-empty name, a price that is a number and above zero, a
    non-empty category. *)
Definition productAccepted `{Runtime} (p : SellerDashboard.ProductForm.t) : Prop :=
  (1 <= JS.length (SellerDashboard.ProductForm.name p))%nat
  /\ (JS.isNaN (Number (SellerDashboard.ProductForm.price p)) = false
      /\ PrimFloat.ltb 0 (Number (SellerDashboard.ProductForm.price p)) = true)
  /\ (1 <= JS.length (SellerDashboard.ProductForm.category p))%nat.

(** The shop form as the description words its validity. *)
Definition shopAccepted `{Runtime} (input : SellerDashboard.Form.t) : Prop :=
  (2 <= JS.length (SellerDashboard.Form.shopName input))%nat
  /\ (2 <= JS.length (SellerDashboard.Form.location input))%nat
  /\ SellerDashboard.Form.products input <> []
  /\ Forall productAccepted (SellerDashboard.Form.products input).

(** The integer [z] as a number. *)
Definition ofZ (z : Z) : float := PrimFloat.of_uint63 (Uint63.of_Z z).

(** A rating is an integer between 1 and 5. *)
Definition starRating (x : float) : Prop :=
  exists z : Z, (1 <= z <= 5)%Z /\ x = ofZ z.

(** A request that submits a review carries such a rating; any other
    request is not concerned. *)
Definition reviewRated (c : Api.config) : Prop :=
  match Api.data c with
  | Api.AddReview r => starRating (NewReview.rating r)
  | _ => True
  end.

(** The invariant of the home view: the rating in the state, and the
    rating of every review sent so far. *)
Definition ratingsInRange (s : Home.State) (w : world) : Prop :=
  starRating (Home.rating s) /\ Forall reviewRated (requests (trace w)).

(** A computation keeps the invariant. *)
Definition keeps {A} (m : M Home.State A) : Prop :=
  forall s w, ratingsInRange s w -> ratingsInRange (state_of (m s w)) (world_of (m s w)).

(** The search as the description words it: the lower-cased query is a
    substring of the shop's name, of its location, or of the name or the
    category of one of its products. *)
Definition matches (searchQuery : string) (shop : Shop.t) : Prop :=
  let query := JS.toLowerCase searchQuery in
  JS.substring_of query (JS.toLowerCase (Shop.shopName shop))
  \/ JS.substring_of query (JS.toLowerCase (Shop.location shop))
  \/ exists product,
       In product (Shop.products shop)
       /\ (JS.substring_of query (JS.toLowerCase (Product.name product))
           \/ JS.substring_of query (JS.toLowerCase (Product.category product))).

(** A request that carries a product carries one the product form
    takes: a name and a category that are not empty and are trimmed,
    and a price that is a number and is not zero or below. *)
Definition productChecked (c : Api.config) : Prop :=
  match Api.data c with
  | Api.NewProduct p =>
      Product.name p <> ""
      /\ Product.category p <> ""
      /\ JS.isNaN (Product.price p) = false
      /\ PrimFloat.leb (Product.price p) 0 = false
  | _ => True
  end.

(** A run left the session alone: local storage, the session and the
    backend are what they were, and the trace only grew. *)
Definition untouched (w w' : world) : Prop :=
  localStorage w' = localStorage w
  /\ isAuthenticated w' = isAuthenticated w
  /\ user w' = user w
  /\ backend w' = backend w
  /\ exists new, trace w' = trace w ++ new.

(** A computation that leaves the session alone from every start. *)
Definition framed {S A} (m : M S A) : Prop :=
  forall s w, untouched w (world_of (m s w)).

(** A review that leaves the client has a comment of at least 10
    characters; a body that is not a review is not concerned. *)
Definition reviewLongEnough (b : Api.body) : Prop :=
  match b with
  | Api.AddReview r => (10 <= JS.length (NewReview.comment r))%nat
  | _ => True
  end.

(** A computation that only sends bodies that satisfy [Q], when only
    such bodies were sent before it. *)
Definition sends_only {S A} (Q : Api.body -> Prop) (m : M S A) : Prop :=
  forall s w,
    Forall (fun c => Q (Api.data c)) (requests (trace w)) ->
    Forall (fun c => Q (Api.data c)) (requests (trace (world_of (m s w)))).

(** ** Sample data *)

Module Sample.

(** A runtime for the samples: a token is the role it stands for, the
    numerals are the ones the samples use, and an email address is a
    string with an at sign. *)
Definition runtime : Runtime :=
  {| jwtDecode := fun token =>
       Some {| User.id := "u1"; User.name := "Asha"; User.email := "asha@example.com";
               User.userType := token |};
     parseFloat := fun s =>
       if String.eqb s "12.5" then 12.5%float
       else if String.eqb s "0" then 0%float
       else PrimFloat.nan;
     Number := fun s =>
       if String.eqb s "12.5" then 12.5%float
       else if String.eqb s "0" || String.eqb s "" then 0%float
       else PrimFloat.nan;
     isEmail := fun s => JS.includes s "@";
     confirm := fun _ => true |}.

(** A backend that accepts everything; the token it hands out is the
    role asked for at signup, which [runtime] decodes as such. *)
Definition accepting : Backend :=
  {| auth := fun _ c =>
       match Api.data c with
       | Api.Signup d => Ok (SignupData.userType d)
       | _ => Ok "buyer"
       end;
     shops := fun _ _ => Ok [];
     myShop := fun _ _ => Ok None;
     reviews := fun _ _ => Ok [];
     ack := fun _ _ => Ok tt |}.

Definition buyer : User.t :=
  {| User.id := "u1"; User.name := "Asha"; User.email := "asha@example.com";
     User.userType := "buyer" |}.

Definition tea : Product.t :=
  {| Product._id := Some "p1"; Product.name := "Green Tea"; Product.price := 4.5;
     Product.category := "Drinks" |}.

Definition corner : Shop.t :=
  {| Shop._id := "s1"; Shop.shopName := "Corner Store"; Shop.location := "Pune";
     Shop.products := [tea]; Shop.owner := "u2"; Shop.averageRating := None;
     Shop.reviewCount := None |}.

Definition bakery : Shop.t :=
  {| Shop._id := "s2"; Shop.shopName := "Bakery"; Shop.location := "Delhi";
     Shop.products := []; Shop.owner := "u3"; Shop.averageRating := None;
     Shop.reviewCount := None |}.

(** A backend with two shops. *)
Definition stocked : Backend :=
  {| auth := auth accepting;
     shops := fun _ _ => Ok [corner; bakery];
     myShop := myShop accepting;
     reviews := reviews accepting;
     ack := ack accepting |}.

(** A buyer is logged in. *)
Definition loggedIn : world :=
  page {[ "token" := "buyer" ]} true (Some buyer) accepting.

(** Nobody is logged in. *)
Definition anonymous : world := page ∅ false None accepting.

(** The home view with a shop open and a review written. *)
Definition reviewing (text : string) (selected : option Shop.t) : Home.State :=
  {| Home.shops := [corner; bakery]; Home.isLoading := false; Home.searchQuery := "";
     Home.locationQuery := ""; Home.selectedShop := selected; Home.reviews := [];
     Home.reviewText := text; Home.rating := 4; Home.isSubmittingReview := false |}.

Definition signupForm : Signup.Form.t :=
  {| Signup.Form.name := "Asha"; Signup.Form.email := "asha@example.com";
     Signup.Form.password := "secret1"; Signup.Form.userType := Some "seller" |}.

Definition signupData : SignupData.t :=
  {| SignupData.name := "Asha"; SignupData.email := "asha@example.com";
     SignupData.password := "secret1"; SignupData.userType := "seller" |}.

Definition loginData : LoginData.t :=
  {| LoginData.email := "asha@example.com"; LoginData.password := "secret1" |}.

(** What a backend that turns a change down answers. *)
Definition denied : Error.t :=
  {| Error.status := Some 400%nat; Error.message := Some "Not allowed" |}.

(** A backend that turns every change and every login down. *)
Definition rejecting : Backend :=
  {| auth := fun _ _ => Err denied;
     shops := shops accepting;
     myShop := myShop accepting;
     reviews := reviews accepting;
     ack := fun _ _ => Err denied |}.

Definition coffee : Product.t :=
  {| Product._id := Some "p2"; Product.name := "Coffee"; Product.price := 12.5;
     Product.category := "Drinks" |}.

(** The shop management view with the corner store held and the
    product form filled with the coffee being edited. *)
Definition managing : ShopManagement.State :=
  {| ShopManagement.shop := Some corner; ShopManagement.isLoading := false;
     ShopManagement.isCreating := false; ShopManagement.shopName := "Corner Store";
     ShopManagement.location := "Pune"; ShopManagement.productName := "Coffee";
     ShopManagement.productPrice := "12.5"; ShopManagement.productCategory := "Drinks";
     ShopManagement.editingProduct := Some coffee;
     ShopManagement.isAddingProduct := false |}.

End Sample.

(** * Properties *)

(** ** Strings *)

Section Strings.

Lemma startsWith_spec hay needle :
  JS.startsWith hay needle = true <-> exists post, hay = (needle ++ post)%string.
Proof.
  revert hay; induction needle as [|a n IH]; intros hay; simpl.
  - split; [intros _; exists hay; reflexivity | reflexivity].
  - destruct hay as [|b h].
    + split; [discriminate | intros [post Hp]; discriminate].
    + rewrite andb_true_iff, Ascii.eqb_eq, IH. split.
      * intros [-> [post ->]]. exists post. reflexivity.
      * intros [post Hp]. injection Hp as -> ->. split; [reflexivity | eauto].
Qed.

Lemma includes_unfold hay needle :
  JS.includes hay needle =
  JS.startsWith hay needle
  || match hay with
     | EmptyString => false
     | String _ h => JS.includes h needle
     end.
Proof. destruct hay; reflexivity. Qed.

(** [includes] decides the substring relation. *)
Lemma includes_spec hay needle :
  JS.includes hay needle = true <-> JS.substring_of needle hay.
Proof.
  unfold JS.substring_of. split.
  - induction hay as [|b h IH]; rewrite includes_unfold, orb_true_iff.
    + intros [Hs | Hf]; [|discriminate].
      apply startsWith_spec in Hs as [post ->]. exists EmptyString, post. reflexivity.
    + intros [Hs | Hr].
      * apply startsWith_spec in Hs as [post ->]. exists EmptyString, post. reflexivity.
      * destruct (IH Hr) as (pre & post & ->). exists (String b pre), post. reflexivity.
  - intros (pre & post & ->). induction pre as [|a p IH].
    + rewrite includes_unfold, orb_true_iff. left.
      apply startsWith_spec. exists post. reflexivity.
    + rewrite includes_unfold, orb_true_iff. right. exact IH.
Qed.

Lemma includes_empty hay : JS.includes hay "" = true.
Proof. apply includes_spec. exists EmptyString, hay. reflexivity. Qed.

End Strings.

Example toLowerCase_sample : JS.toLowerCase "Green TEA" = "green tea".
Proof. reflexivity. Qed.

Example includes_sample :
  JS.includes "corner store" "store" = true /\ JS.includes "corner store" "tea" = false.
Proof. split; reflexivity. Qed.

Example trim_sample : JS.trim "   a b  " = "a b" /\ JS.trim "    " = "".
Proof. split; reflexivity. Qed.

Example truthy_sample :
  JS.truthyNumber 0 = false /\ JS.truthyNumber 77.5 = true
  /\ JS.truthyString "" = false /\ JS.truthyString "Pune" = true.
Proof. repeat split. Qed.

(** ** The search filter *)

Section Filter.

(** The predicate both views filter with, read as the description. *)
Lemma shop_filter_matches (searchQuery : string) (shop : Shop.t) :
  (let query := JS.toLowerCase searchQuery in
   JS.includes (JS.toLowerCase (Shop.shopName shop)) query
   || JS.includes (JS.toLowerCase (Shop.location shop)) query
   || existsb
        (fun product =>
           JS.includes (JS.toLowerCase (Product.name product)) query
           || JS.includes (JS.toLowerCase (Product.category product)) query)
        (Shop.products shop)) = true
  <-> matches searchQuery shop.
Proof.
  unfold matches. cbv zeta.
  rewrite !orb_true_iff, existsb_exists, !includes_spec.
  split.
  - intros [[Hn | Hl] | (p & Hin & Hp)]; [tauto | tauto |].
    right; right. exists p. split; [exact Hin|].
    apply orb_true_iff in Hp. rewrite !includes_spec in Hp. exact Hp.
  - intros [Hn | [Hl | (p & Hin & Hp)]]; [tauto | tauto |].
    right. exists p. split; [exact Hin|].
    apply orb_true_iff. rewrite !includes_spec. exact Hp.
Qed.

Lemma filter_sublist {A} (f : A -> bool) (l : list A) : List.filter f l `sublist_of` l.
Proof.
  induction l as [|x l IH]; simpl.
  - constructor.
  - destruct (f x); [apply sublist_skip | apply sublist_cons]; exact IH.
Qed.

Lemma filter_all {A} (f : A -> bool) (l : list A) :
  (forall x, f x = true) -> List.filter f l = l.
Proof.
  intros Hf. induction l as [|x l IH]; simpl; [reflexivity|].
  rewrite Hf, IH. reflexivity.
Qed.

(** C1. For every fetched shop list and every search query, the list
    the buyer and home views show holds exactly the shops for which
    the lower-cased query is a substring of the lower-cased name, of
    the lower-cased location, or of the lower-cased name or category
    of at least one product. *)
Theorem filteredShops_exactly_the_matches :
  (forall (st : BuyerDashboard.State) (shop : Shop.t),
     In shop (BuyerDashboard.filteredShops st)
     <-> In shop (BuyerDashboard.shops st) /\ matches (BuyerDashboard.searchQuery st) shop)
  /\ (forall (st : Home.State) (shop : Shop.t),
        In shop (Home.filteredShops st)
        <-> In shop (Home.shops st) /\ matches (Home.searchQuery st) shop).
Proof.
  split; intros st shop.
  - unfold BuyerDashboard.filteredShops.
    rewrite filter_In, shop_filter_matches. reflexivity.
  - unfold Home.filteredShops.
    rewrite filter_In, shop_filter_matches. reflexivity.
Qed.

(** C10. With the empty search query the filter is the identity: the
    filtered list is the fetched list, same shops in the same order;
    and for every query the filtered list is a subsequence of the
    fetched list. *)
Theorem filteredShops_empty_query_identity :
  (forall (fetched : list Shop.t) (loading : bool),
     BuyerDashboard.filteredShops
       {| BuyerDashboard.shops := fetched; BuyerDashboard.isLoading := loading;
          BuyerDashboard.searchQuery := "" |} = fetched)
  /\ (forall (fetched : list Shop.t) loading locationQuery selectedShop reviews
             reviewText rating submitting,
        Home.filteredShops
          {| Home.shops := fetched; Home.isLoading := loading; Home.searchQuery := "";
             Home.locationQuery := locationQuery; Home.selectedShop := selectedShop;
             Home.reviews := reviews; Home.reviewText := reviewText;
             Home.rating := rating; Home.isSubmittingReview := submitting |} = fetched)
  /\ (forall st : BuyerDashboard.State,
        BuyerDashboard.filteredShops st `sublist_of` BuyerDashboard.shops st)
  /\ (forall st : Home.State, Home.filteredShops st `sublist_of` Home.shops st).
Proof.
  repeat split; intros.
  - unfold BuyerDashboard.filteredShops. apply filter_all. intros shop. simpl.
    rewrite includes_empty. reflexivity.
  - unfold Home.filteredShops. apply filter_all. intros shop. simpl.
    rewrite includes_empty. reflexivity.
  - apply filter_sublist.
  - apply filter_sublist.
Qed.

End Filter.

Example search_for_tea :
  Home.filteredShops
    {| Home.shops := [Sample.corner; Sample.bakery]; Home.isLoading := false;
       Home.searchQuery := "TEA"; Home.locationQuery := ""; Home.selectedShop := None;
       Home.reviews := []; Home.reviewText := ""; Home.rating := 5;
       Home.isSubmittingReview := false |}
  = [Sample.corner].
Proof. reflexivity. Qed.

Example search_by_location :
  BuyerDashboard.filteredShops
    {| BuyerDashboard.shops := [Sample.corner; Sample.bakery];
       BuyerDashboard.isLoading := false; BuyerDashboard.searchQuery := "delhi" |}
  = [Sample.bakery].
Proof. reflexivity. Qed.

(** ** The API client *)

Section Client.

Lemma interceptor_method ls c : Api.method (Api.interceptor ls c) = Api.method c.
Proof. unfold Api.interceptor. destruct (ls !! "token") as [t|]; [destruct (JS.truthyString t)|]; reflexivity. Qed.

Lemma interceptor_url ls c : Api.url (Api.interceptor ls c) = Api.url c.
Proof. unfold Api.interceptor. destruct (ls !! "token") as [t|]; [destruct (JS.truthyString t)|]; reflexivity. Qed.

Lemma interceptor_params ls c : Api.params (Api.interceptor ls c) = Api.params c.
Proof. unfold Api.interceptor. destruct (ls !! "token") as [t|]; [destruct (JS.truthyString t)|]; reflexivity. Qed.

Lemma interceptor_data ls c : Api.data (Api.interceptor ls c) = Api.data c.
Proof. unfold Api.interceptor. destruct (ls !! "token") as [t|]; [destruct (JS.truthyString t)|]; reflexivity. Qed.

Lemma interceptor_token ls c :
  Api.headers (Api.interceptor ls c) !! "x-auth-token" =
  match ls !! "token" with
  | Some token => if JS.truthyString token then Some token else Api.headers c !! "x-auth-token"
  | None => Api.headers c !! "x-auth-token"
  end.
Proof.
  unfold Api.interceptor.
  destruct (ls !! "token") as [t|]; [destruct (JS.truthyString t)|]; try reflexivity.
  simpl. apply lookup_insert_eq.
Qed.

Lemma interceptor_other_headers ls c (k : string) :
  k <> "x-auth-token" -> Api.headers (Api.interceptor ls c) !! k = Api.headers c !! k.
Proof.
  intros Hk. unfold Api.interceptor.
  destruct (ls !! "token") as [t|]; [destruct (JS.truthyString t)|]; try reflexivity.
  simpl. apply lookup_insert_ne. congruence.
Qed.

Lemma send_trace {S A} (answer : Backend -> nat -> Api.config -> result A)
  (c : Api.config) (s : S) (w : world) :
  trace (world_of (send answer c s w))
  = trace w ++ [Request (Api.interceptor (localStorage w) c)].
Proof.
  unfold send, world_of.
  destruct (answer _ _ _); reflexivity.
Qed.


Lemma interceptor_headers ls c :
  Api.headers (Api.interceptor ls c) =
  match ls !! "token" with
  | Some token =>
      if decide (token = "") then Api.headers c
      else <["x-auth-token" := token]> (Api.headers c)
  | None => Api.headers c
  end.
Proof.
  unfold Api.interceptor. destruct (ls !! "token") as [token|]; [|reflexivity].
  destruct token as [|a token]; reflexivity.
Qed.

Lemma interceptor_default_headers ls c :
  Api.headers c = Api.defaults ->
  Api.headers (Api.interceptor ls c) = expectedHeaders ls.
Proof.
  intros Hc. rewrite interceptor_headers, Hc. reflexivity.
Qed.

Lemma send_added {S A} (answer : Backend -> nat -> Api.config -> result A)
  (c : Api.config) (s : S) (w : world) :
  added w (send answer c s w) = [Request (Api.interceptor (localStorage w) c)].
Proof.
  unfold added. rewrite send_trace. apply drop_app_length.
Qed.

Lemma send_expected_headers {S A} (answer : Backend -> nat -> Api.config -> result A)
  (c : Api.config) :
  Api.headers c = Api.defaults ->
  sends_with_expected_headers (send (S := S) answer c).
Proof.
  intros Hc s w. eexists. split; [apply send_added|].
  apply interceptor_default_headers, Hc.
Qed.


(** The query parameters of [getShops], key by key. *)
Lemma getShops_params_location location latitude longitude :
  Api.getShops_params location latitude longitude !! "location" =
  match location with
  | Some l => if JS.truthyString l then Some (Api.Str l) else None
  | None => None
  end.
Proof.
  unfold Api.getShops_params.
  destruct location as [l|], latitude as [lat|], longitude as [lng|];
    repeat match goal with |- context [if ?b then _ else _] => destruct b end;
    rewrite ?lookup_insert_ne by discriminate;
    rewrite ?lookup_insert_eq, ?lookup_empty; reflexivity.
Qed.

Lemma getShops_params_lat_lng location latitude longitude :
  let params := Api.getShops_params location latitude longitude in
  match latitude, longitude with
  | Some lat, Some lng =>
      if JS.truthyNumber lat && JS.truthyNumber lng
      then params !! "lat" = Some (Api.Num lat) /\ params !! "lng" = Some (Api.Num lng)
      else params !! "lat" = None /\ params !! "lng" = None
  | _, _ => params !! "lat" = None /\ params !! "lng" = None
  end.
Proof.
  unfold Api.getShops_params.
  destruct location as [l|], latitude as [lat|], longitude as [lng|]; cbv zeta;
    repeat match goal with |- context [if ?b then _ else _] => destruct b end;
    split;
    rewrite ?lookup_insert_eq; rewrite ?lookup_insert_ne by discriminate;
    rewrite ?lookup_insert_eq; rewrite ?lookup_insert_ne by discriminate;
    rewrite ?lookup_empty; reflexivity.
Qed.

(** C4 at the input where the code departs from it: a position on the
    equator is supplied, latitude 0 and longitude 77.5, and the
    request of [fetchNearbyShops] leaves with no lat and no lng
    parameter, as if no coordinates were given. *)
Theorem getShops_drops_zero_latitude :
  Api.getShops_params None (Some 0%float) (Some 77.5%float) = ∅
  /\ exists c,
       requests (trace (world_of
         (Home.fetchNearbyShops 0%float 77.5%float Home.initial Sample.anonymous))) = [c]
       /\ Api.url c = "/shop"
       /\ Api.params c !! "lat" = None
       /\ Api.params c !! "lng" = None.
Proof.
  split; [reflexivity|].
  eexists. repeat split; vm_compute; reflexivity.
Qed.

End Client.

Example getShops_by_location :
  Api.getShops_params (Some "Pune") None None = {[ "location" := Api.Str "Pune" ]}.
Proof. reflexivity. Qed.

Example getShops_nearby :
  Api.getShops_params None (Some 18.5%float) (Some 73.75%float)
  = <["lng" := Api.Num 73.75]> {[ "lat" := Api.Num 18.5 ]}.
Proof. reflexivity. Qed.

Example request_of_a_buyer :
  Api.headers (Api.interceptor {[ "token" := "abc" ]} (Api.get "/shop" ∅))
  = <["x-auth-token" := "abc"]> {[ "Content-Type" := "application/json" ]}.
Proof. reflexivity. Qed.

(** ** The handlers of the views *)

Section Handlers.
Context `{Runtime}.

Lemma requests_app a b : requests (a ++ b) = requests a ++ requests b.
Proof. induction a as [|[] a IH]; simpl; rewrite ?IH; reflexivity. Qed.

Lemma mutating_interceptor ls c : mutating (Api.interceptor ls c) = mutating c.
Proof. unfold mutating. rewrite interceptor_method. reflexivity. Qed.

Lemma added_app {S A} (w : world) (r : outcome A * S * world) (new : list event) :
  trace (world_of r) = trace w ++ new -> added w r = new.
Proof. unfold added. intros ->. apply drop_app_length. Qed.

(** Running a handler symbolically: unfold the monad, and split on
    what the backend answers. *)
Ltac unfold_monad :=
  unfold mbind, M_bind, mret, M_ret, bind, ret, throw, set, emit, getWorld, getState,
    try_catch_finally, try_catch, toast_success, toast_error, navigate, send,
    AuthContext.login, record in *.

Ltac reduce :=
  repeat (progress
            (unfold_monad;
             cbn -[Api.interceptor JS.trim JS.length Nat.ltb Nat.eqb])).

Ltac split_answers :=
  repeat (reduce;
    match goal with
    | |- context [ack ?b ?n ?c] => destruct (ack b n c) eqn:?
    | |- context [auth ?b ?n ?c] => destruct (auth b n c) eqn:?
    | |- context [shops ?b ?n ?c] => destruct (shops b n c) eqn:?
    | |- context [myShop ?b ?n ?c] => destruct (myShop b n c) as [[?|]|?] eqn:?
    | |- context [reviews ?b ?n ?c] => destruct (reviews b n c) eqn:?
    | |- context [jwtDecode ?t] => destruct (jwtDecode t) eqn:?
    | |- context [Error.status ?e] => destruct (Error.status e) eqn:?
    | |- context [Nat.eqb ?a 404] => destruct (Nat.eqb a 404) eqn:?
    end); reduce.

Create HintDb views.
#[local] Hint Unfold
  authAPI.signup authAPI.login
  shopAPI.getShops shopAPI.createShop shopAPI.updateShop shopAPI.deleteShop
  shopAPI.getMyShop shopAPI.addProduct shopAPI.updateProduct shopAPI.deleteProduct
  reviewAPI.getReviews reviewAPI.addReview reviewAPI.deleteReview
  Home.setShops Home.setIsLoading Home.setSearchQuery Home.setLocationQuery
  Home.setSelectedShop Home.setReviews Home.setReviewText Home.setRating
  Home.setIsSubmittingReview
  ShopManagement.setShop ShopManagement.setIsLoading ShopManagement.setIsCreating
  ShopManagement.setShopName ShopManagement.setLocation ShopManagement.setProductName
  ShopManagement.setProductPrice ShopManagement.setProductCategory
  ShopManagement.setEditingProduct ShopManagement.setIsAddingProduct
  ShopManagement.fetchMyShop : views.

(** Reading what a run added off the trace it ends with. *)
Ltac the_trace :=
  unfold world_of; cbn [snd trace];
  first [ exact (eq_sym (app_nil_r _)) | rewrite <- ?app_assoc; reflexivity ].

Ltac read_added := erewrite added_app by the_trace; cbn [app].

Ltac single_call :=
  first [ apply (one_call []) | apply (one_call [_]) ];
  [ reflexivity | rewrite mutating_interceptor; reflexivity | reflexivity ].

Lemma requests_after_busy_flag (tr : list event) (field : string) :
  requests (tr ++ [SetState field]) = requests tr.
Proof. rewrite requests_app. apply app_nil_r. Qed.

(** The handler sent nothing. *)
Ltac nothing_sent := reduce; read_added; reflexivity.

(** The handler made its call: split on what the backend answers, and
    read the busy flag, the call and what follows it off the trace. *)
Ltac call_made :=
  unfold one_call_then_refresh; cbv zeta; reduce;
  rewrite ?requests_after_busy_flag;
  (split; [reflexivity|]);
  match goal with
  | |- context [ack ?b ?n ?c] => destruct (ack b n c) eqn:?
  end;
  split_answers;
  (first [ exists []; eexists; split; [read_added; reflexivity|]
         | eexists [_]; eexists; split; [read_added; reflexivity|] ]);
  (split; [reflexivity|]); cbn [requests];
  first [ reflexivity
        | eexists; split; [reflexivity | rewrite interceptor_method; reflexivity] ].

Lemma handleSubmitReview_guarded c s w :
  let r := Home.handleSubmitReview c s w in
  match isAuthenticated w, Home.selectedShop c, user w with
  | true, Some shop, Some u =>
      if (JS.length (JS.trim (Home.reviewText c)) <? 10)%nat
      then requests (added w r) = []
      else
        one_call_then_refresh w r
          (Api.post "/reviews"
             (Api.AddReview
                {| NewReview.shopId := Shop._id shop;
                   NewReview.userId := User.id u;
                   NewReview.userName := User.name u;
                   NewReview.rating := Home.rating c;
                   NewReview.comment := JS.trim (Home.reviewText c) |}))
  | _, _, _ => requests (added w r) = []
  end.
Proof.
  cbv zeta. unfold Home.handleSubmitReview. autounfold with views. reduce.
  destruct (isAuthenticated w); [|nothing_sent].
  destruct (Home.selectedShop c) as [shop|];
    [|destruct (user w); nothing_sent].
  destruct (user w) as [u|]; [|nothing_sent].
  reduce. destruct (_ <? 10)%nat; [nothing_sent | call_made].
Qed.

Lemma handleCreateShop_guarded c s w :
  let r := ShopManagement.handleCreateShop c s w in
  if JS.truthyString (JS.trim (ShopManagement.shopName c))
     && JS.truthyString (JS.trim (ShopManagement.location c))
  then
    one_call_then_refresh w r
      (Api.post "/shop"
         (Api.NewShop
            {| ShopData.shopName := JS.trim (ShopManagement.shopName c);
               ShopData.location := JS.trim (ShopManagement.location c);
               ShopData.products := [] |}))
  else requests (added w r) = [].
Proof.
  cbv zeta. unfold ShopManagement.handleCreateShop. autounfold with views.
  destruct (JS.truthyString (JS.trim (ShopManagement.shopName c)));
    destruct (JS.truthyString (JS.trim (ShopManagement.location c)));
    cbn [negb orb andb]; [call_made | nothing_sent ..].
Qed.

Lemma handleUpdateShop_guarded c s w :
  let r := ShopManagement.handleUpdateShop c s w in
  match ShopManagement.shop c with
  | Some sh =>
      if JS.truthyString (JS.trim (ShopManagement.shopName c))
         && JS.truthyString (JS.trim (ShopManagement.location c))
      then
        one_call_then_refresh w r
          (Api.put ("/shop/" ++ Shop._id sh)
             (Api.NewShop
                {| ShopData.shopName := JS.trim (ShopManagement.shopName c);
                   ShopData.location := JS.trim (ShopManagement.location c);
                   ShopData.products := Shop.products sh |}))
      else requests (added w r) = []
  | None => requests (added w r) = []
  end.
Proof.
  cbv zeta. unfold ShopManagement.handleUpdateShop. autounfold with views.
  destruct (ShopManagement.shop c) as [sh|]; [|nothing_sent].
  destruct (JS.truthyString (JS.trim (ShopManagement.shopName c)));
    destruct (JS.truthyString (JS.trim (ShopManagement.location c)));
    cbn [negb orb andb]; [call_made | nothing_sent ..].
Qed.

Lemma handleAddProduct_guarded c s w :
  let r := ShopManagement.handleAddProduct c s w in
  match ShopManagement.shop c with
  | Some sh =>
      if JS.truthyString (JS.trim (ShopManagement.productName c))
         && JS.truthyString (ShopManagement.productPrice c)
         && JS.truthyString (JS.trim (ShopManagement.productCategory c))
         && negb (JS.isNaN (parseFloat (ShopManagement.productPrice c)))
         && negb (PrimFloat.leb (parseFloat (ShopManagement.productPrice c)) 0)
      then
        one_call_then_refresh w r
          (Api.post ("/shop/" ++ Shop._id sh ++ "/products")
             (Api.NewProduct
                {| Product._id := None;
                   Product.name := JS.trim (ShopManagement.productName c);
                   Product.price := parseFloat (ShopManagement.productPrice c);
                   Product.category := JS.trim (ShopManagement.productCategory c) |}))
      else requests (added w r) = []
  | None => requests (added w r) = []
  end.
Proof.
  cbv zeta. unfold ShopManagement.handleAddProduct. autounfold with views.
  destruct (ShopManagement.shop c) as [sh|]; [|nothing_sent].
  destruct (JS.truthyString (JS.trim (ShopManagement.productName c)));
    cbn [negb orb andb]; [|nothing_sent].
  destruct (JS.truthyString (ShopManagement.productPrice c));
    cbn [negb orb andb]; [|nothing_sent].
  destruct (JS.truthyString (JS.trim (ShopManagement.productCategory c)));
    cbn [negb orb andb]; [|nothing_sent].
  cbv zeta.
  destruct (JS.isNaN (parseFloat (ShopManagement.productPrice c)));
    cbn [negb orb andb]; [nothing_sent|].
  destruct (PrimFloat.leb (parseFloat (ShopManagement.productPrice c)) 0);
    cbn [negb orb andb]; [nothing_sent | call_made].
Qed.

Lemma handleUpdateProduct_guarded c s w :
  let r := ShopManagement.handleUpdateProduct c s w in
  match ShopManagement.shop c, ShopManagement.editingProduct c with
  | Some sh, Some editing =>
      match Product._id editing with
      | Some productId =>
          if JS.truthyString productId
             && JS.truthyString (JS.trim (ShopManagement.productName c))
             && JS.truthyString (ShopManagement.productPrice c)
             && JS.truthyString (JS.trim (ShopManagement.productCategory c))
             && negb (JS.isNaN (parseFloat (ShopManagement.productPrice c)))
             && negb (PrimFloat.leb (parseFloat (ShopManagement.productPrice c)) 0)
          then
            one_call_then_refresh w r
              (Api.put ("/shop/" ++ Shop._id sh ++ "/products/" ++ productId)
                 (Api.NewProduct
                    {| Product._id := None;
                       Product.name := JS.trim (ShopManagement.productName c);
                       Product.price := parseFloat (ShopManagement.productPrice c);
                       Product.category := JS.trim (ShopManagement.productCategory c) |}))
          else requests (added w r) = []
      | None => requests (added w r) = []
      end
  | _, _ => requests (added w r) = []
  end.
Proof.
  cbv zeta. unfold ShopManagement.handleUpdateProduct. autounfold with views.
  destruct (ShopManagement.shop c) as [sh|];
    [|destruct (ShopManagement.editingProduct c); nothing_sent].
  destruct (ShopManagement.editingProduct c) as [editing|]; [|nothing_sent].
  destruct (Product._id editing) as [productId|]; [|nothing_sent].
  destruct (JS.truthyString productId); cbn [negb orb andb]; [|nothing_sent].
  destruct (JS.truthyString (JS.trim (ShopManagement.productName c)));
    cbn [negb orb andb]; [|nothing_sent].
  destruct (JS.truthyString (ShopManagement.productPrice c));
    cbn [negb orb andb]; [|nothing_sent].
  destruct (JS.truthyString (JS.trim (ShopManagement.productCategory c)));
    cbn [negb orb andb]; [|nothing_sent].
  cbv zeta.
  destruct (JS.isNaN (parseFloat (ShopManagement.productPrice c)));
    cbn [negb orb andb]; [nothing_sent|].
  destruct (PrimFloat.leb (parseFloat (ShopManagement.productPrice c)) 0);
    cbn [negb orb andb]; [nothing_sent | call_made].
Qed.

Lemma handleDeleteProduct_guarded c productId s w :
  let r := ShopManagement.handleDeleteProduct c productId s w in
  match ShopManagement.shop c with
  | Some sh =>
      if confirm "Are you sure you want to delete this product?"
      then
        one_call_then_refresh w r
          (Api.delete ("/shop/" ++ Shop._id sh ++ "/products/" ++ productId))
      else requests (added w r) = []
  | None => requests (added w r) = []
  end.
Proof.
  cbv zeta. unfold ShopManagement.handleDeleteProduct. autounfold with views.
  destruct (ShopManagement.shop c) as [sh|]; [|nothing_sent].
  destruct (confirm _); cbn [negb]; [call_made | nothing_sent].
Qed.

Lemma signup_one_call data s w : exactly_one_call (added w (Signup.onSubmit data s w)).
Proof.
  unfold Signup.onSubmit. autounfold with views. split_answers; read_added; single_call.
Qed.

Lemma login_one_call {S} data (s : S) w : exactly_one_call (added w (authAPI.login data s w)).
Proof.
  autounfold with views. split_answers; read_added; single_call.
Qed.

Lemma seller_form_one_call data s w :
  exactly_one_call (added w (SellerDashboard.onSubmit data s w)).
Proof.
  unfold SellerDashboard.onSubmit. autounfold with views.
  split_answers; read_added; single_call.
Qed.

Lemma busy_flags_send_nothing pre : forallb busyFlag pre = true -> requests pre = [].
Proof.
  induction pre as [|e pre IH]; [reflexivity|].
  simpl. rewrite andb_true_iff. intros [He Hpre].
  destruct e; try discriminate. simpl. auto.
Qed.

Lemma exactly_one_call_length new :
  exactly_one_call new -> List.length (requests new) = 1%nat.
Proof.
  intros [pre c post Hpre _ Hpost].
  rewrite requests_app, (busy_flags_send_nothing _ Hpre). simpl. rewrite Hpost. reflexivity.
Qed.

(** Past its guards, [handleSubmitReview] posts the review, and fetches
    the reviews again when the backend took it. *)
Lemma handleSubmitReview_calls c s w shop u :
  isAuthenticated w = true ->
  Home.selectedShop c = Some shop ->
  user w = Some u ->
  (10 <= JS.length (JS.trim (Home.reviewText c)))%nat ->
  map Api.method (requests (added w (Home.handleSubmitReview c s w))) =
  match
    ack (backend w) (List.length (requests (trace w)))
      (Api.interceptor (localStorage w)
         (Api.post "/reviews"
            (Api.AddReview
               {| NewReview.shopId := Shop._id shop;
                  NewReview.userId := User.id u;
                  NewReview.userName := User.name u;
                  NewReview.rating := Home.rating c;
                  NewReview.comment := JS.trim (Home.reviewText c) |})))
  with
  | Ok _ => [Api.POST; Api.GET]
  | Err _ => [Api.POST]
  end.
Proof.
  intros Hauth Hshop Huser Hlong. apply Nat.ltb_ge in Hlong.
  unfold Home.handleSubmitReview. autounfold with views. reduce.
  rewrite Hauth, Hshop, Huser. reduce. rewrite Hlong. reduce.
  rewrite requests_after_busy_flag.
  split_answers; read_added; cbn [requests map]; rewrite ?interceptor_method; reflexivity.
Qed.

(** Past its guard, [handleCreateShop] posts the shop, and fetches the
    seller's shop again when the backend took it. *)
Lemma handleCreateShop_calls c s w :
  JS.truthyString (JS.trim (ShopManagement.shopName c)) = true ->
  JS.truthyString (JS.trim (ShopManagement.location c)) = true ->
  map Api.method (requests (added w (ShopManagement.handleCreateShop c s w))) =
  match
    ack (backend w) (List.length (requests (trace w)))
      (Api.interceptor (localStorage w)
         (Api.post "/shop"
            (Api.NewShop
               {| ShopData.shopName := JS.trim (ShopManagement.shopName c);
                  ShopData.location := JS.trim (ShopManagement.location c);
                  ShopData.products := [] |})))
  with
  | Ok _ => [Api.POST; Api.GET]
  | Err _ => [Api.POST]
  end.
Proof.
  intros Hname Hloc.
  unfold ShopManagement.handleCreateShop. autounfold with views.
  rewrite Hname, Hloc. reduce.
  rewrite requests_after_busy_flag.
  split_answers; read_added; cbn [requests map]; rewrite ?interceptor_method; reflexivity.
Qed.

(** What the shape says of the requests: the mutating call is the
    first request of the handler, and at most one request follows it,
    so a handler that sends nothing does not have the shape. *)
Lemma one_call_then_refresh_requests {S A} (w : world) (r : outcome A * S * world)
  (c : Api.config) :
  one_call_then_refresh w r c ->
  exists rest,
    requests (added w r) = Api.interceptor (localStorage w) c :: rest
    /\ (List.length rest <= 1)%nat
    /\ Forall (fun g => Api.method g = Api.GET) rest.
Proof.
  intros (_ & pre & post & Hadded & Hpre & Hpost).
  exists (requests post). rewrite Hadded, requests_app.
  rewrite (busy_flags_send_nothing _ Hpre). split; [reflexivity|].
  destruct (ack _ _ _).
  - destruct Hpost as (g & -> & Hg). split; [simpl; lia|]. repeat constructor. exact Hg.
  - rewrite Hpost. split; [simpl; lia | constructor].
Qed.


(** What [handleSubmitReview] does with a short comment, in every
    session: nothing is sent and the state is kept; the visitor who is
    not logged in is sent to the login page, and the check of the
    length is reached with a shop selected and a user present. *)
Lemma short_review_cases (c s : Home.State) (w : world) :
  (JS.length (JS.trim (Home.reviewText c)) < 10)%nat ->
  let r := Home.handleSubmitReview c s w in
  outcome_of r = Returned tt
  /\ state_of r = s
  /\ requests (added w r) = []
  /\ localStorage (world_of r) = localStorage w
  /\ added w r =
     if negb (isAuthenticated w)
     then [ToastError "Please login to submit a review"; Navigate "/login"]
     else match Home.selectedShop c, user w with
          | Some _, Some _ => [ToastError "Review must be at least 10 characters long"]
          | _, _ => []
          end.
Proof.
  intros Hshort. apply Nat.ltb_lt in Hshort.
  unfold Home.handleSubmitReview. autounfold with views. reduce.
  destruct (isAuthenticated w); reduce.
  - destruct (Home.selectedShop c) as [shop|], (user w) as [u|]; reduce;
      rewrite ?Hshort; reduce; read_added; repeat split; reflexivity.
  - read_added. repeat split; reflexivity.
Qed.

(** C9. Where the review form exists, that is in the dialog of a
    selected shop, rendered for an authenticated buyer: if the trimmed
    review comment is shorter than 10 characters, submitting the review
    fails locally with the error message about the length and nothing
    else, no HTTP request is issued, and the state of the view, comment
    text and rating included, is left as it was. *)
Theorem short_review_ends_locally (c s : Home.State) (w : world) :
  Home.reviewFormShown w = true ->
  is_Some (Home.selectedShop c) ->
  (JS.length (JS.trim (Home.reviewText c)) < 10)%nat ->
  let r := Home.handleSubmitReview c s w in
  outcome_of r = Returned tt
  /\ state_of r = s
  /\ Home.reviewText (state_of r) = Home.reviewText s
  /\ Home.rating (state_of r) = Home.rating s
  /\ requests (added w r) = []
  /\ localStorage (world_of r) = localStorage w
  /\ added w r = [ToastError "Review must be at least 10 characters long"].
Proof.
  intros Hform [shop Hshop] Hshort.
  destruct (short_review_cases c s w Hshort) as (Hout & Hstate & Hnone & Hstore & Hadded).
  cbv zeta in *.
  unfold Home.reviewFormShown in Hform. apply andb_true_iff in Hform as [Hauth Hbuyer].
  destruct (user w) as [u|] eqn:Huser; [|discriminate].
  rewrite Hauth, Hshop in Hadded. cbn [negb] in Hadded.
  rewrite Hstate.
  split; [exact Hout|]. split; [reflexivity|]. split; [reflexivity|].
  split; [reflexivity|]. split; [exact Hnone|]. split; [exact Hstore | exact Hadded].
Qed.

Lemma dashboard_seller (u : User.t) :
  dashboard u = "/seller" <-> User.userType u = "seller".
Proof.
  unfold dashboard. destruct (String.eqb_spec (User.userType u) "seller") as [E|E].
  - tauto.
  - split; [discriminate | contradiction].
Qed.

Lemma dashboard_buyer (u : User.t) :
  dashboard u = "/buyer" <-> User.userType u <> "seller".
Proof.
  unfold dashboard. destruct (String.eqb_spec (User.userType u) "seller") as [E|E].
  - split; [discriminate | contradiction].
  - tauto.
Qed.

Lemma signup_success data s w token u :
  auth (backend w) (List.length (requests (trace w)))
    (Api.interceptor (localStorage w) (Api.post "/auth/signup" (Api.Signup data))) = Ok token ->
  jwtDecode token = Some u ->
  let r := Signup.onSubmit data s w in
  (exists sent,
     added w r =
     [SetState "isLoading"; Request sent; StoreSession token u;
      ToastSuccess "Account created successfully!"; Navigate (dashboard u);
      SetState "isLoading"])
  /\ localStorage (world_of r) !! "token" = Some token
  /\ user (world_of r) = Some u
  /\ isAuthenticated (world_of r) = true.
Proof.
  intros Hauth Hjwt.
  unfold Signup.onSubmit. autounfold with views. reduce.
  rewrite requests_after_busy_flag, Hauth. reduce. rewrite Hjwt. reduce.
  split; [eexists; read_added; reflexivity|].
  split; [apply lookup_insert_eq|]. split; reflexivity.
Qed.

Lemma login_success data s w token u :
  auth (backend w) (List.length (requests (trace w)))
    (Api.interceptor (localStorage w) (Api.post "/auth/login" (Api.Login data))) = Ok token ->
  jwtDecode token = Some u ->
  let r := Login.onSubmit data s w in
  (exists sent,
     added w r =
     [SetState "isLoading"; Request sent; StoreSession token u;
      ToastSuccess "Logged in successfully!"; Navigate (dashboard u);
      SetState "isLoading"])
  /\ localStorage (world_of r) !! "token" = Some token
  /\ user (world_of r) = Some u
  /\ isAuthenticated (world_of r) = true.
Proof.
  intros Hauth Hjwt.
  unfold Login.onSubmit. autounfold with views. reduce.
  rewrite requests_after_busy_flag, Hauth. reduce. rewrite Hjwt. reduce.
  split; [eexists; read_added; reflexivity|].
  split; [apply lookup_insert_eq|]. split; reflexivity.
Qed.

Lemma index_redirect w u :
  isAuthenticated w = true ->
  user w = Some u ->
  added w (Index.redirect tt w) = [Navigate (dashboard u)].
Proof.
  intros Hauth Huser. unfold Index.redirect. reduce.
  rewrite Hauth, Huser. reduce. read_added. reflexivity.
Qed.

(** C5. For every successful signup or login (the backend answers with
    a token, and the token decodes to a user), the handler stores the
    token and the user and then navigates to the dashboard of the user:
    '/seller' if and only if the userType is 'seller', and '/buyer'
    otherwise.  The landing page redirects an authenticated user the
    same way. *)
Theorem successful_auth_navigates_by_role :
  (forall data s w token u,
     auth (backend w) (List.length (requests (trace w)))
       (Api.interceptor (localStorage w) (Api.post "/auth/signup" (Api.Signup data)))
     = Ok token ->
     jwtDecode token = Some u ->
     let r := Signup.onSubmit data s w in
     (exists sent,
        added w r =
        [SetState "isLoading"; Request sent; StoreSession token u;
         ToastSuccess "Account created successfully!"; Navigate (dashboard u);
         SetState "isLoading"])
     /\ localStorage (world_of r) !! "token" = Some token
     /\ user (world_of r) = Some u
     /\ isAuthenticated (world_of r) = true)
  /\ (forall data s w token u,
        auth (backend w) (List.length (requests (trace w)))
          (Api.interceptor (localStorage w) (Api.post "/auth/login" (Api.Login data)))
        = Ok token ->
        jwtDecode token = Some u ->
        let r := Login.onSubmit data s w in
        (exists sent,
           added w r =
           [SetState "isLoading"; Request sent; StoreSession token u;
            ToastSuccess "Logged in successfully!"; Navigate (dashboard u);
            SetState "isLoading"])
        /\ localStorage (world_of r) !! "token" = Some token
        /\ user (world_of r) = Some u
        /\ isAuthenticated (world_of r) = true)
  /\ (forall w u,
        isAuthenticated w = true ->
        user w = Some u ->
        added w (Index.redirect tt w) = [Navigate (dashboard u)])
  /\ (forall u : User.t,
        (dashboard u = "/seller" <-> User.userType u = "seller")
        /\ (dashboard u = "/buyer" <-> User.userType u <> "seller")).
Proof.
  split; [exact signup_success|].
  split; [exact login_success|].
  split; [exact index_redirect|].
  intros u. split; [apply dashboard_seller | apply dashboard_buyer].
Qed.

End Handlers.

(** ** The handlers at sample inputs *)



Lemma short_review_ends_locally_witness :
  let c := Sample.reviewing "too short" (Some Sample.corner) in
  Home.reviewFormShown Sample.loggedIn = true
  /\ is_Some (Home.selectedShop c)
  /\ (JS.length (JS.trim (Home.reviewText c)) < 10)%nat
  /\ state_of (Home.handleSubmitReview c c Sample.loggedIn) = c
  /\ requests (added Sample.loggedIn (Home.handleSubmitReview c c Sample.loggedIn)) = []
  /\ added Sample.loggedIn (Home.handleSubmitReview c c Sample.loggedIn)
     = [ToastError "Review must be at least 10 characters long"].
Proof.
  cbv zeta.
  assert (Hshort : (JS.length (JS.trim "too short") < 10)%nat) by (vm_compute; lia).
  assert (Hshop : is_Some (Home.selectedShop
                             (Sample.reviewing "too short" (Some Sample.corner))))
    by (exists Sample.corner; reflexivity).
  split; [reflexivity|]. split; [exact Hshop|]. split; [exact Hshort|].
  destruct (short_review_ends_locally
              (Sample.reviewing "too short" (Some Sample.corner))
              (Sample.reviewing "too short" (Some Sample.corner))
              Sample.loggedIn eq_refl Hshop Hshort)
    as (_ & Hstate & _ & _ & Hnone & _ & Hmessage).
  split; [exact Hstate|]. split; [exact Hnone | exact Hmessage].
Defined.

Lemma successful_auth_navigates_by_role_witness :
  auth Sample.accepting 0
    (Api.interceptor ∅ (Api.post "/auth/signup" (Api.Signup Sample.signupData)))
  = Ok "seller"
  /\ (exists sent,
        added Sample.anonymous
          (Signup.onSubmit (H := Sample.runtime) Sample.signupData
             {| Signup.isLoading := false |} Sample.anonymous)
        = [SetState "isLoading"; Request sent;
           StoreSession "seller"
             {| User.id := "u1"; User.name := "Asha"; User.email := "asha@example.com";
                User.userType := "seller" |};
           ToastSuccess "Account created successfully!"; Navigate "/seller";
           SetState "isLoading"]).
Proof.
  split; [reflexivity|].
  destruct (successful_auth_navigates_by_role (H := Sample.runtime)) as (Hsignup & _).
  destruct (Hsignup Sample.signupData {| Signup.isLoading := false |} Sample.anonymous
              "seller"
              {| User.id := "u1"; User.name := "Asha"; User.email := "asha@example.com";
                 User.userType := "seller" |}
              eq_refl eq_refl) as (Hadded & _).
  exact Hadded.
Defined.

(** ** The forms and their schemas *)

Section Forms.
Context `{Runtime}.

Lemma safeParse_cases {I O} (schema : I -> Zod.checked O) (input : I) :
  match Zod.safeParse schema input with
  | Zod.Success data => data = fst (schema input) /\ snd (schema input) = []
  | Zod.Failure issues => issues = snd (schema input) /\ issues <> []
  end.
Proof.
  unfold Zod.safeParse. destruct (schema input) as [d [|i rest]]; simpl.
  - split; reflexivity.
  - split; [reflexivity | discriminate].
Qed.

Lemma check_nil {A} (b : bool) (x : A) : (if b then [] else [x]) = [] <-> b = true.
Proof. destruct b; split; intros; try reflexivity; discriminate. Qed.

Lemma string_min_nil n message s :
  snd (Zod.string_min n message s) = [] <-> (n <= JS.length s)%nat.
Proof. unfold Zod.string_min. simpl. rewrite check_nil. apply Nat.leb_le. Qed.

Lemma string_email_nil message s :
  snd (Zod.string_email message s) = [] <-> isEmail s = true.
Proof. unfold Zod.string_email. simpl. apply check_nil. Qed.

Lemma enum_nil options required_error v :
  snd (Zod.enum options required_error v) = [] <-> exists x, v = Some x /\ In x options.
Proof.
  unfold Zod.enum. destruct v as [x|]; simpl.
  - rewrite check_nil, existsb_exists. split.
    + intros (y & Hin & Heq). apply String.eqb_eq in Heq. subst y. eauto.
    + intros (y & [= <-] & Hin). exists x. split; [exact Hin | apply String.eqb_refl].
  - split; [discriminate | intros (x & Hx & _); discriminate].
Qed.

Lemma coerce_number_positive_nil message input :
  snd (Zod.coerce_number_positive message input) = []
  <-> JS.isNaN (Number input) = false /\ PrimFloat.ltb 0 (Number input) = true.
Proof.
  unfold Zod.coerce_number_positive. simpl.
  destruct (JS.isNaN (Number input)).
  - split; [discriminate | intros [? _]; discriminate].
  - rewrite check_nil. tauto.
Qed.

Lemma array_min_nil {I O} (element : I -> Zod.checked O) n message (l : list I) :
  snd (Zod.array_min element n message l) = []
  <-> Forall (fun i => snd (element i) = []) l /\ (n <= List.length l)%nat.
Proof.
  unfold Zod.array_min. simpl.
  rewrite app_nil, check_nil, Nat.leb_le.
  assert (Hall : flat_map (fun i => snd (element i)) l = []
                 <-> Forall (fun i => snd (element i) = []) l).
  { induction l as [|i l IH]; simpl.
    - split; [constructor | reflexivity].
    - rewrite app_nil, IH. split.
      + intros [Hi Hl]. constructor; assumption.
      + intros Hil. inversion Hil; subst. split; assumption. }
  rewrite Hall. reflexivity.
Qed.

Lemma signupSchema_nil input :
  snd (Signup.signupSchema input) = [] <-> signupAccepted input.
Proof.
  unfold Signup.signupSchema, signupAccepted. cbn [snd].
  rewrite !app_nil, !string_min_nil, string_email_nil, enum_nil.
  assert (Hrole : (exists x, Signup.Form.userType input = Some x /\ In x ["buyer"; "seller"])
                  <-> (Signup.Form.userType input = Some "buyer"
                       \/ Signup.Form.userType input = Some "seller")).
  { split.
    - intros (x & -> & [<- | [<- | []]]); [left | right]; reflexivity.
    - intros [-> | ->]; eexists; (split; [reflexivity|]); simpl; tauto. }
  rewrite Hrole. tauto.
Qed.

Lemma productSchema_nil p :
  snd (SellerDashboard.productSchema p) = [] <-> productAccepted p.
Proof.
  unfold SellerDashboard.productSchema, productAccepted. cbn [snd].
  rewrite !app_nil, !string_min_nil, coerce_number_positive_nil. tauto.
Qed.

Lemma shopSchema_nil input :
  snd (SellerDashboard.shopSchema input) = [] <-> shopAccepted input.
Proof.
  unfold SellerDashboard.shopSchema, shopAccepted. cbn [snd].
  rewrite !app_nil, !string_min_nil, array_min_nil.
  assert (Hall : Forall (fun i => snd (SellerDashboard.productSchema i) = [])
                   (SellerDashboard.Form.products input)
                 <-> Forall productAccepted (SellerDashboard.Form.products input)).
  { apply Forall_iff. intros p. apply productSchema_nil. }
  rewrite Hall.
  destruct (SellerDashboard.Form.products input) as [|p ps]; simpl.
  - split; [intros (_ & _ & _ & Hlen); lia | intros (_ & _ & Hne & _); congruence].
  - split; intros (Hn & Hl & Hrest); repeat split; try tauto; try lia; discriminate.
Qed.

(** C7. The signup form's validation accepts an input exactly when the
    name has at least 2 characters, the email is a valid email address,
    the password has at least 6 characters, and the userType is 'buyer'
    or 'seller'; an accepted input is handed to [onSubmit] as parsed,
    and a rejected one shows the form's errors with no call to the auth
    endpoint. *)
Theorem signup_validation (input : Signup.Form.t) :
  match Zod.safeParse Signup.signupSchema input with
  | Zod.Success data =>
      signupAccepted input
      /\ data = {| SignupData.name := Signup.Form.name input;
                   SignupData.email := Signup.Form.email input;
                   SignupData.password := Signup.Form.password input;
                   SignupData.userType := default "" (Signup.Form.userType input) |}
      /\ forall s w, Signup.submit input s w = Signup.onSubmit data s w
  | Zod.Failure issues =>
      ~ signupAccepted input
      /\ forall s w,
           added w (Signup.submit input s w) = [FormErrors issues]
           /\ requests (added w (Signup.submit input s w)) = []
  end.
Proof.
  pose proof (safeParse_cases Signup.signupSchema input) as Hcases.
  unfold Signup.submit, handleSubmit.
  destruct (Zod.safeParse Signup.signupSchema input) as [data | issues].
  - destruct Hcases as [-> Hnil]. split; [apply signupSchema_nil, Hnil|].
    split; [|reflexivity].
    unfold Signup.signupSchema, Zod.enum. simpl.
    destruct (Signup.Form.userType input); reflexivity.
  - destruct Hcases as [-> Hsome]. split.
    + intros Hacc. apply Hsome, signupSchema_nil, Hacc.
    + intros s w. unfold emit, record.
      rewrite (added_app w _ [FormErrors (snd (Signup.signupSchema input))]) by reflexivity.
      split; reflexivity.
Qed.

(** C6. The seller shop form's validation accepts an input exactly when
    the shop name has at least 2 characters, the location has at least
    2 characters, the products list is non-empty, and every product has
    a non-empty name, a positive numeric price and a non-empty category;
    an accepted input is handed to [onSubmit] as parsed, and on
    rejection the form shows its errors and no HTTP call is made. *)
Theorem shop_form_validation (input : SellerDashboard.Form.t) :
  match Zod.safeParse SellerDashboard.shopSchema input with
  | Zod.Success data =>
      shopAccepted input
      /\ forall s w, SellerDashboard.submit input s w = SellerDashboard.onSubmit data s w
  | Zod.Failure issues =>
      ~ shopAccepted input
      /\ forall s w,
           added w (SellerDashboard.submit input s w) = [FormErrors issues]
           /\ requests (added w (SellerDashboard.submit input s w)) = []
  end.
Proof.
  pose proof (safeParse_cases SellerDashboard.shopSchema input) as Hcases.
  unfold SellerDashboard.submit, handleSubmit.
  destruct (Zod.safeParse SellerDashboard.shopSchema input) as [data | issues].
  - destruct Hcases as [-> Hnil]. split; [apply shopSchema_nil, Hnil | reflexivity].
  - destruct Hcases as [-> Hsome]. split.
    + intros Hacc. apply Hsome, shopSchema_nil, Hacc.
    + intros s w. unfold emit, record.
      rewrite (added_app w _ [FormErrors (snd (SellerDashboard.shopSchema input))])
        by reflexivity.
      split; reflexivity.
Qed.

End Forms.

Example signup_form_accepted :
  Zod.safeParse (Signup.signupSchema (H := Sample.runtime)) Sample.signupForm
  = Zod.Success Sample.signupData.
Proof. reflexivity. Qed.

Example signup_form_rejected :
  Zod.safeParse (Signup.signupSchema (H := Sample.runtime))
    {| Signup.Form.name := "A"; Signup.Form.email := "asha";
       Signup.Form.password := "secret1"; Signup.Form.userType := None |}
  = Zod.Failure
      [Zod.Custom "Name must be at least 2 characters"; Zod.Custom "Invalid email address";
       Zod.Custom "Please select a role"].
Proof. reflexivity. Qed.

Example shop_form_untouched_product_rejected :
  Zod.safeParse (SellerDashboard.shopSchema (H := Sample.runtime))
    {| SellerDashboard.Form.shopName := "Corner Store";
       SellerDashboard.Form.location := "Pune";
       SellerDashboard.Form.products :=
         [{| SellerDashboard.ProductForm.name := "";
             SellerDashboard.ProductForm.price := "0";
             SellerDashboard.ProductForm.category := "" |}] |}
  = Zod.Failure
      [Zod.Custom "Product name is required"; Zod.Custom "Price must be positive";
       Zod.Custom "Category is required"].
Proof. reflexivity. Qed.

(** ** The rating of a review *)

Section Ratings.

Lemma stars_are_ratings : Forall starRating Home.stars.
Proof.
  unfold Home.stars.
  repeat constructor.
  - exists 1%Z. split; [lia | reflexivity].
  - exists 2%Z. split; [lia | reflexivity].
  - exists 3%Z. split; [lia | reflexivity].
  - exists 4%Z. split; [lia | reflexivity].
  - exists 5%Z. split; [lia | reflexivity].
Qed.

Lemma initial_rating : starRating (Home.rating Home.initial).
Proof. exists 5%Z. split; [lia | reflexivity]. Qed.

Lemma keeps_ret {A} (a : A) : keeps (mret a).
Proof. intros s w Hinv. exact Hinv. Qed.

Lemma keeps_bind {A B} (m : M Home.State A) (k : A -> M Home.State B) :
  keeps m -> (forall a, keeps (k a)) -> keeps (m ≫= k).
Proof.
  intros Hm Hk s w Hinv. specialize (Hm s w Hinv).
  unfold mbind, M_bind, bind. unfold state_of, world_of in *.
  destruct (m s w) as [[[a|e] s'] w']; simpl in *.
  - apply Hk, Hm.
  - exact Hm.
Qed.

Lemma keeps_try_catch {A} (body : M Home.State A) handler :
  keeps body -> (forall e, keeps (handler e)) -> keeps (try_catch body handler).
Proof.
  intros Hb Hh s w Hinv. specialize (Hb s w Hinv).
  unfold try_catch, state_of, world_of in *.
  destruct (body s w) as [[[a|e] s'] w']; simpl in *.
  - exact Hb.
  - apply Hh, Hb.
Qed.

Lemma keeps_try_catch_finally {A} (body : M Home.State A) handler final :
  keeps body -> (forall e, keeps (handler e)) -> keeps final ->
  keeps (try_catch_finally body handler final).
Proof.
  intros Hb Hh Hf s w Hinv. specialize (Hb s w Hinv).
  unfold try_catch_finally, state_of, world_of in *.
  destruct (body s w) as [[[a|e] s1] w1]; simpl in *.
  - specialize (Hf s1 w1 Hb). destruct (final s1 w1) as [[[?|?] s2] w2]; exact Hf.
  - specialize (Hh e s1 w1 Hb).
    destruct (handler e s1 w1) as [[o s2] w2]; simpl in *.
    specialize (Hf s2 w2 Hh). destruct (final s2 w2) as [[[?|?] s3] w3]; exact Hf.
Qed.

Lemma requests_snoc_other tr e :
  (forall c, e <> Request c) -> requests (tr ++ [e]) = requests tr.
Proof.
  intros He. rewrite requests_app. destruct e; simpl; try apply app_nil_r.
  exfalso. eapply He. reflexivity.
Qed.

Lemma keeps_emit e : (forall c, e <> Request c) -> keeps (emit e).
Proof.
  intros He s w [Hr Hall]. split; [exact Hr|].
  unfold emit, record, world_of. simpl. rewrite requests_snoc_other by exact He. exact Hall.
Qed.

Lemma keeps_set field f :
  (forall s, starRating (Home.rating s) -> starRating (Home.rating (f s))) ->
  keeps (set field f).
Proof.
  intros Hf s w [Hr Hall]. split.
  - apply Hf, Hr.
  - unfold set, record, world_of. simpl. rewrite requests_snoc_other by discriminate. exact Hall.
Qed.

Lemma keeps_send {A} (answer : Backend -> nat -> Api.config -> result A) c :
  reviewRated c -> keeps (send answer c).
Proof.
  intros Hc s w [Hr Hall]. unfold send, state_of, world_of, record.
  destruct (answer _ _ _); simpl; (split; [exact Hr|]).
  all: simpl; rewrite requests_app; apply Forall_app; (split; [exact Hall|]);
    repeat constructor; unfold reviewRated; rewrite interceptor_data; exact Hc.
Qed.

Lemma keeps_getWorld : keeps getWorld.
Proof. intros s w Hinv. exact Hinv. Qed.

Lemma keeps_getState : keeps getState.
Proof. intros s w Hinv. exact Hinv. Qed.


(** The rules above, applied down the structure of a handler. *)
Ltac keep :=
  repeat first
    [ apply keeps_bind; [|intros ?]
    | apply keeps_try_catch_finally; [| intros ? |]
    | apply keeps_try_catch; [| intros ?]
    | apply keeps_ret
    | apply keeps_getWorld
    | apply keeps_getState
    | apply keeps_emit; discriminate
    | apply keeps_set; intros ? Hstar; exact Hstar
    | apply keeps_send; exact I ].

Lemma keeps_fetchShops c : keeps (Home.fetchShops c).
Proof.
  unfold Home.fetchShops, shopAPI.getShops, Home.setIsLoading, Home.setShops, toast_error.
  keep.
Qed.

Lemma keeps_handleUseMyLocation geo : keeps (Home.handleUseMyLocation geo).
Proof.
  unfold Home.handleUseMyLocation, Home.fetchNearbyShops, shopAPI.getShops,
    Home.setIsLoading, Home.setShops, toast_error, toast_success.
  destruct geo; keep.
Qed.

Lemma keeps_handleShopClick shop : keeps (Home.handleShopClick shop).
Proof.
  unfold Home.handleShopClick, reviewAPI.getReviews, Home.setSelectedShop, Home.setReviews.
  keep.
Qed.

Lemma keeps_handleSubmitReview c :
  starRating (Home.rating c) -> keeps (Home.handleSubmitReview c).
Proof.
  intros Hc.
  unfold Home.handleSubmitReview, reviewAPI.addReview, reviewAPI.getReviews,
    Home.setIsSubmittingReview, Home.setReviewText, Home.setRating, Home.setReviews,
    toast_error, toast_success, navigate.
  apply keeps_bind; [apply keeps_getWorld | intros w].
  destruct (negb (isAuthenticated w)); [keep|].
  destruct (Home.selectedShop c) as [shop|], (user w) as [u|]; try (keep; fail).
  destruct (_ <? 10)%nat; [keep|].
  keep.
  - apply keeps_send. exact Hc.
  - apply keeps_set. intros s _. exists 5%Z. split; [lia | reflexivity].
Qed.

Lemma keeps_handler c a : starRating (Home.rating c) -> keeps (Home.handler c a).
Proof.
  intros Hc. destruct a; simpl.
  - unfold Home.setSearchQuery. keep.
  - apply keeps_bind; [unfold Home.setLocationQuery; keep | intros _].
    apply keeps_bind; [apply keeps_getState | intros s]. apply keeps_fetchShops.
  - apply keeps_handleUseMyLocation.
  - destruct (nth_error _ _); [apply keeps_handleShopClick | keep].
  - apply keeps_bind; [apply keeps_getWorld | intros w].
    destruct (Home.reviewFormShown w); [|keep].
    destruct (nth_error Home.stars k) as [star|] eqn:Hk; [|keep].
    unfold Home.setRating. apply keeps_set. intros s _.
    apply nth_error_In in Hk.
    exact (proj1 (List.Forall_forall _ _) stars_are_ratings _ Hk).
  - apply keeps_bind; [apply keeps_getWorld | intros w].
    destruct (Home.reviewFormShown w); [unfold Home.setReviewText|]; keep.
  - apply keeps_bind; [apply keeps_getWorld | intros w].
    destruct (_ && _); [apply keeps_handleSubmitReview, Hc | keep].
Qed.

Lemma keeps_dispatch a : keeps (Home.dispatch a).
Proof.
  intros s w Hinv. unfold Home.dispatch. apply keeps_handler; [apply Hinv | exact Hinv].
Qed.

Lemma keeps_session acts : keeps (Home.session acts).
Proof.
  induction acts as [|a acts IH]; simpl.
  - apply keeps_ret.
  - apply keeps_bind; [|intros _; exact IH].
    apply keeps_try_catch; [apply keeps_dispatch | intros _; apply keeps_ret].
Qed.

(** C8. Every review submitted through the shop detail dialog carries a
    rating that is an integer between 1 and 5: the rating starts at 5,
    the stars of the selector are 1 to 5, and whatever the visitor does
    on the page and whatever the backend answers, the rating in the
    state and the rating of every review sent are such integers. *)
Theorem review_ratings_between_1_and_5 storage authenticated u b (acts : list Home.action) :
  let r := (Home.mount;; Home.session acts) Home.initial (page storage authenticated u b) in
  Home.rating Home.initial = ofZ 5
  /\ Forall starRating Home.stars
  /\ starRating (Home.rating (state_of r))
  /\ Forall reviewRated (requests (trace (world_of r))).
Proof.
  cbv zeta. split; [reflexivity|]. split; [exact stars_are_ratings|].
  apply (keeps_bind Home.mount (fun _ => Home.session acts)).
  - apply keeps_fetchShops.
  - intros _. apply keeps_session.
  - split; [apply initial_rating | constructor].
Qed.

End Ratings.


(** A visit where a review is sent: the buyer opens the first shop,
    clicks the third star, writes, and submits. *)
Example review_with_three_stars :
  let w := page {[ "token" := "buyer" ]} true (Some Sample.buyer) Sample.stocked in
  let visit :=
    [Home.ClickShop 0; Home.ClickStar 2; Home.TypeReview "Lovely shop, fresh tea.";
     Home.ClickSubmit] in
  let r := (Home.mount;; Home.session visit) Home.initial w in
  map Api.data (filter (fun c => mutating c) (requests (trace (world_of r))))
  = [Api.AddReview
       {| NewReview.shopId := "s1"; NewReview.userId := "u1"; NewReview.userName := "Asha";
          NewReview.rating := 3; NewReview.comment := "Lovely shop, fresh tea." |}]
  /\ Home.rating (state_of r) = 5%float
  /\ Home.reviewText (state_of r) = "".
Proof. vm_compute. repeat split. Qed.

(** ** More of the API client *)

Section ClientMore.

(** The interceptor is idempotent: a config that went through it is
    left as it is by a second pass over the same storage. *)
Theorem interceptor_idempotent (ls : gmap string string) (c : Api.config) :
  Api.interceptor ls (Api.interceptor ls c) = Api.interceptor ls c.
Proof.
  unfold Api.interceptor.
  destruct (ls !! "token") as [token|]; [|reflexivity].
  destruct (JS.truthyString token); [|reflexivity].
  simpl. rewrite insert_insert_eq. reflexivity.
Qed.

(** The query of [getShops] holds no key but location, lat and lng;
    lat and lng come together or not at all; and an empty location is
    not sent. *)
Theorem getShops_params_keys location latitude longitude :
  let params := Api.getShops_params location latitude longitude in
  (forall k, is_Some (params !! k) -> k = "location" \/ k = "lat" \/ k = "lng")
  /\ (is_Some (params !! "lat") <-> is_Some (params !! "lng"))
  /\ (is_Some (params !! "location")
      <-> exists l, location = Some l /\ l <> "")
  /\ (is_Some (params !! "lat")
      <-> exists lat lng,
            latitude = Some lat /\ longitude = Some lng
            /\ JS.truthyNumber lat = true /\ JS.truthyNumber lng = true).
Proof.
  cbv zeta.
  pose proof (getShops_params_location location latitude longitude) as Hloc.
  pose proof (getShops_params_lat_lng location latitude longitude) as Hll.
  cbv zeta in Hll.
  assert (Hkeys : forall k,
            is_Some (Api.getShops_params location latitude longitude !! k) ->
            k = "location" \/ k = "lat" \/ k = "lng").
  { intros k Hk.
    destruct (decide (k = "location")) as [|Hk1]; [tauto|].
    destruct (decide (k = "lat")) as [|Hk2]; [tauto|].
    destruct (decide (k = "lng")) as [|Hk3]; [tauto|].
    exfalso. revert Hk. unfold Api.getShops_params.
    destruct location as [l|], latitude as [lat|], longitude as [lng|];
      repeat match goal with |- context [if ?b then _ else _] => destruct b end;
      rewrite ?lookup_insert_ne by congruence; rewrite lookup_empty;
      intros [? ?]; discriminate. }
  remember (Api.getShops_params location latitude longitude) as params eqn:Hparams.
  clear Hparams.
  split; [exact Hkeys|]. clear Hkeys. split; [|split].
  - destruct latitude as [lat|], longitude as [lng|];
      try destruct (JS.truthyNumber lat && JS.truthyNumber lng);
      destruct Hll as [-> ->]; split; intros [? ?]; try discriminate; eauto.
  - rewrite Hloc. destruct location as [[|a l]|]; simpl; split.
    + intros [? ?]; discriminate.
    + intros (l & [= <-] & Hl). contradiction.
    + intros _. eexists. split; [reflexivity | discriminate].
    + intros _. eauto.
    + intros [? ?]; discriminate.
    + intros (l & ? & _); discriminate.
  - destruct latitude as [lat|], longitude as [lng|].
    + destruct (JS.truthyNumber lat) eqn:Hlat, (JS.truthyNumber lng) eqn:Hlng;
        cbn [andb] in Hll; destruct Hll as [-> _]; split.
      all: try (intros [? ?]; discriminate).
      all: try (intros (? & ? & [= <-] & [= <-] & ? & ?); congruence).
      * intros _. exists lat, lng. auto.
      * intros _. eauto.
    + destruct Hll as [-> _]. split; [intros [? ?]; discriminate|].
      intros (? & ? & _ & ? & _); discriminate.
    + destruct Hll as [-> _]. split; [intros [? ?]; discriminate|].
      intros (? & ? & ? & _); discriminate.
    + destruct Hll as [-> _]. split; [intros [? ?]; discriminate|].
      intros (? & ? & ? & _); discriminate.
Qed.

End ClientMore.

(** ** More of the handlers *)

Section HandlersMore.
Context `{Runtime}.

Ltac open_monad :=
  unfold mbind, M_bind, mret, M_ret, bind, ret, throw, set, emit, getWorld, getState,
    try_catch_finally, try_catch, toast_success, toast_error, navigate, send,
    record in *.

Ltac evaluate :=
  repeat (progress
            (open_monad;
             cbn -[Api.interceptor Api.getShops_params JS.trim JS.length
                   Nat.ltb Nat.eqb PrimFloat.leb added])).

Ltac answers :=
  repeat (evaluate;
    match goal with
    | |- context [ack ?b ?n ?c] => destruct (ack b n c) eqn:?
    | |- context [auth ?b ?n ?c] => destruct (auth b n c) eqn:?
    | |- context [shops ?b ?n ?c] => destruct (shops b n c) eqn:?
    | |- context [myShop ?b ?n ?c] => destruct (myShop b n c) as [[?|]|?] eqn:?
    | |- context [reviews ?b ?n ?c] => destruct (reviews b n c) eqn:?
    | |- context [jwtDecode ?t] => destruct (jwtDecode t) eqn:?
    | |- context [Error.status ?e] => destruct (Error.status e) eqn:?
    | |- context [Nat.eqb ?a 404] => destruct (Nat.eqb a 404) eqn:?
    end); evaluate.

Ltac trace_read :=
  unfold world_of; cbn [snd trace];
  first [ exact (eq_sym (app_nil_r _)) | rewrite <- ?app_assoc; reflexivity ].

Ltac read := erewrite !added_app by trace_read; cbn [app requests].

Create HintDb more_views.
#[local] Hint Unfold
  authAPI.signup authAPI.login
  shopAPI.getShops shopAPI.createShop shopAPI.updateShop shopAPI.deleteShop
  shopAPI.getMyShop shopAPI.addProduct shopAPI.updateProduct shopAPI.deleteProduct
  reviewAPI.getReviews reviewAPI.addReview reviewAPI.deleteReview
  Home.setShops Home.setIsLoading Home.setSearchQuery Home.setLocationQuery
  Home.setSelectedShop Home.setReviews Home.setReviewText Home.setRating
  Home.setIsSubmittingReview
  BuyerDashboard.setShops BuyerDashboard.setIsLoading BuyerDashboard.setSearchQuery
  ShopManagement.setShop ShopManagement.setIsLoading ShopManagement.setIsCreating
  ShopManagement.setShopName ShopManagement.setLocation ShopManagement.setProductName
  ShopManagement.setProductPrice ShopManagement.setProductCategory
  ShopManagement.setEditingProduct ShopManagement.setIsAddingProduct
  ShopManagement.fetchMyShop : more_views.

(** Fetching the shops of the home view always ends with the loading
    flag down.  One GET /shop leaves, with the location filter of the
    render as its only parameter; the answer replaces the list, and a
    failure leaves the list as it was and shows a toast.  Nothing else
    of the state changes: the two filters, the selected shop, its
    reviews and the three fields of the review form are as before. *)
Theorem home_fetchShops_settles (c s : Home.State) (w : world) :
  let r := Home.fetchShops c s w in
  let sent :=
    Api.interceptor (localStorage w)
      (Api.get "/shop" (Api.getShops_params (Some (Home.locationQuery c)) None None)) in
  Home.isLoading (state_of r) = false
  /\ match shops (backend w) (List.length (requests (trace w))) sent with
     | Ok data =>
         Home.shops (state_of r) = data
         /\ added w r
            = [SetState "isLoading"; Request sent; SetState "shops"; SetState "isLoading"]
     | Err _ =>
         Home.shops (state_of r) = Home.shops s
         /\ added w r
            = [SetState "isLoading"; Request sent; ToastError "Failed to fetch shops";
               SetState "isLoading"]
     end
  /\ Home.searchQuery (state_of r) = Home.searchQuery s
  /\ Home.locationQuery (state_of r) = Home.locationQuery s
  /\ Home.selectedShop (state_of r) = Home.selectedShop s
  /\ Home.reviews (state_of r) = Home.reviews s
  /\ Home.reviewText (state_of r) = Home.reviewText s
  /\ Home.rating (state_of r) = Home.rating s
  /\ Home.isSubmittingReview (state_of r) = Home.isSubmittingReview s.
Proof.
  cbv zeta. unfold Home.fetchShops. autounfold with more_views. evaluate.
  rewrite requests_after_busy_flag.
  destruct (shops _ _ _); evaluate; read; repeat split; reflexivity.
Qed.


Lemma requests_length_after_call (tr : list event) (c : Api.config) :
  List.length (requests (tr ++ [Request c])) = S (List.length (requests tr)).
Proof. rewrite requests_app, length_app. simpl. lia. Qed.

Lemma requests_after_toast (tr : list event) (e : event) :
  (forall c, e <> Request c) -> requests (tr ++ [e]) = requests tr.
Proof.
  intros He. rewrite requests_app. destruct e; simpl; try apply app_nil_r.
  exfalso. eapply He. reflexivity.
Qed.

(** Asking for the position: without one (no geolocation, or access
    denied) the view only shows an error toast, sends nothing and
    keeps its state; with one it announces the nearby shops and sends
    one GET /shop that carries no location filter, and the loading
    flag is down at the end. *)
Theorem handleUseMyLocation_outcomes (geo : Home.geolocation) (s : Home.State) (w : world) :
  let r := Home.handleUseMyLocation geo s w in
  match geo with
  | Home.Position latitude longitude =>
      (exists sent rest,
         added w r
         = ToastSuccess "Location detected! Showing nearby shops"
           :: SetState "isLoading" :: Request sent :: rest
         /\ requests rest = []
         /\ Api.method sent = Api.GET
         /\ Api.url sent = "/shop"
         /\ Api.params sent = Api.getShops_params None (Some latitude) (Some longitude)
         /\ Api.params sent !! "location" = None)
      /\ Home.isLoading (state_of r) = false
  | Home.Denied =>
      added w r = [ToastError "Unable to access your location"] /\ state_of r = s
  | Home.Unsupported =>
      added w r = [ToastError "Geolocation is not supported by your browser"]
      /\ state_of r = s
  end.
Proof.
  cbv zeta. unfold Home.handleUseMyLocation, Home.fetchNearbyShops.
  autounfold with more_views.
  destruct geo as [| |latitude longitude]; evaluate.
  - read. split; reflexivity.
  - read. split; reflexivity.
  - destruct (shops _ _ _); evaluate; read;
      (split; [|reflexivity]); eexists _, _;
      (split; [reflexivity|]); (split; [reflexivity|]);
      rewrite interceptor_method, interceptor_url, interceptor_params;
      repeat split; apply getShops_params_location.
Qed.

(** Opening a shop selects it and fetches its reviews with one GET;
    the answer replaces the reviews, and a failure empties them
    without any message. *)
Theorem handleShopClick_loads_reviews (shop : Shop.t) (s : Home.State) (w : world) :
  let r := Home.handleShopClick shop s w in
  let sent :=
    Api.interceptor (localStorage w) (Api.get ("/reviews/" ++ Shop._id shop) ∅) in
  outcome_of r = Returned tt
  /\ Home.selectedShop (state_of r) = Some shop
  /\ added w r = [SetState "selectedShop"; Request sent; SetState "reviews"]
  /\ Home.reviews (state_of r)
     = match reviews (backend w) (List.length (requests (trace w))) sent with
       | Ok data => data
       | Err _ => []
       end
  /\ Home.reviewText (state_of r) = Home.reviewText s
  /\ Home.rating (state_of r) = Home.rating s.
Proof.
  cbv zeta. unfold Home.handleShopClick. autounfold with more_views. evaluate.
  rewrite requests_after_busy_flag.
  destruct (reviews _ _ _); evaluate; read; repeat split; reflexivity.
Qed.

(** A review leaves the client exactly when the visitor is
    authenticated, a shop is selected, a user is present and the
    trimmed comment has at least 10 characters. *)
Theorem review_is_sent_exactly_past_the_guards (c s : Home.State) (w : world) :
  requests (added w (Home.handleSubmitReview c s w)) <> []
  <-> isAuthenticated w = true
      /\ is_Some (Home.selectedShop c)
      /\ is_Some (user w)
      /\ (10 <= JS.length (JS.trim (Home.reviewText c)))%nat.
Proof.
  unfold Home.handleSubmitReview. autounfold with more_views. evaluate.
  destruct (isAuthenticated w); evaluate.
  2:{ read. split; [congruence | intros [? _]; discriminate]. }
  destruct (Home.selectedShop c) as [shop|]; evaluate.
  2:{ destruct (user w); evaluate; read;
        (split; [congruence | intros (_ & [? ?] & _); discriminate]). }
  destruct (user w) as [u|]; evaluate.
  2:{ read. split; [congruence | intros (_ & _ & [? ?] & _); discriminate]. }
  destruct (Nat.ltb_spec (JS.length (JS.trim (Home.reviewText c))) 10) as [Hlt|Hge].
  - evaluate. read. split; [congruence | intros (_ & _ & _ & ?); lia].
  - answers; read; (split; [intros _; eauto | discriminate]).
Qed.

(** When the backend turns a review down, the comment and the rating
    stay in the form, the submitting flag is down again, and the toast
    shows the message of the backend, or "Failed to submit review"
    when it gave none. *)
Theorem rejected_review_keeps_the_form (c s : Home.State) (w : world)
  (shop : Shop.t) (u : User.t) (e : Error.t) :
  isAuthenticated w = true ->
  Home.selectedShop c = Some shop ->
  user w = Some u ->
  (10 <= JS.length (JS.trim (Home.reviewText c)))%nat ->
  let sent :=
    Api.interceptor (localStorage w)
      (Api.post "/reviews"
         (Api.AddReview
            {| NewReview.shopId := Shop._id shop;
               NewReview.userId := User.id u;
               NewReview.userName := User.name u;
               NewReview.rating := Home.rating c;
               NewReview.comment := JS.trim (Home.reviewText c) |})) in
  ack (backend w) (List.length (requests (trace w))) sent = Err e ->
  let r := Home.handleSubmitReview c s w in
  Home.reviewText (state_of r) = Home.reviewText s
  /\ Home.rating (state_of r) = Home.rating s
  /\ Home.reviews (state_of r) = Home.reviews s
  /\ Home.isSubmittingReview (state_of r) = false
  /\ added w r
     = [SetState "isSubmittingReview"; Request sent;
        ToastError (message_or e "Failed to submit review");
        SetState "isSubmittingReview"].
Proof.
  intros Hauth Hshop Huser Hlong sent Hack. subst sent. apply Nat.ltb_ge in Hlong.
  cbv zeta. unfold Home.handleSubmitReview. autounfold with more_views. evaluate.
  rewrite Hauth, Hshop, Huser. evaluate. rewrite Hlong. evaluate.
  rewrite requests_after_busy_flag, Hack. evaluate. read. repeat split; reflexivity.
Qed.


(** A signup that fails, because the backend rejects it or because the
    token it returns does not decode, stores nothing: local storage and
    the session are as before, the view does not navigate, the loading
    flag is down, and the toast shows the message of the backend or
    "Signup failed. Please try again.". *)
Theorem failed_signup_stores_nothing (data : SignupData.t) (s : Signup.State) (w : world) :
  let r := Signup.onSubmit data s w in
  let sent :=
    Api.interceptor (localStorage w) (Api.post "/auth/signup" (Api.Signup data)) in
  let failed (message : string) :=
    localStorage (world_of r) = localStorage w
    /\ isAuthenticated (world_of r) = isAuthenticated w
    /\ user (world_of r) = user w
    /\ Signup.isLoading (state_of r) = false
    /\ added w r
       = [SetState "isLoading"; Request sent; ToastError message; SetState "isLoading"] in
  match auth (backend w) (List.length (requests (trace w))) sent with
  | Err e => failed (message_or e "Signup failed. Please try again.")
  | Ok token =>
      match jwtDecode token with
      | None => failed "Signup failed. Please try again."
      | Some _ => True
      end
  end.
Proof.
  cbv zeta. unfold Signup.onSubmit. autounfold with more_views. evaluate.
  rewrite requests_after_busy_flag.
  destruct (auth _ _ _) as [token|e]; evaluate.
  - destruct (jwtDecode token) as [u|]; [exact I|].
    evaluate. read. repeat split; reflexivity.
  - read. repeat split; reflexivity.
Qed.


(** Fetching the seller's shop sends one GET /shop/my-shop and always
    ends with the loading flag down.  A shop in the answer replaces the
    one held and fills the name and location inputs; an empty answer
    clears the shop and leaves the inputs; a 404 is taken as "no shop
    yet" and is silent; any other failure shows a toast.  A failure
    leaves the shop held as it was. *)
Theorem fetchMyShop_outcomes (s : ShopManagement.State) (w : world) :
  let r := ShopManagement.fetchMyShop s w in
  let sent := Api.interceptor (localStorage w) (Api.get "/shop/my-shop" ∅) in
  ShopManagement.isLoading (state_of r) = false
  /\ requests (added w r) = [sent]
  /\ match myShop (backend w) (List.length (requests (trace w))) sent with
     | Ok (Some d) =>
         ShopManagement.shop (state_of r) = Some d
         /\ ShopManagement.shopName (state_of r) = Shop.shopName d
         /\ ShopManagement.location (state_of r) = Shop.location d
         /\ added w r
            = [SetState "isLoading"; Request sent; SetState "shop"; SetState "shopName";
               SetState "location"; SetState "isLoading"]
     | Ok None =>
         ShopManagement.shop (state_of r) = None
         /\ ShopManagement.shopName (state_of r) = ShopManagement.shopName s
         /\ ShopManagement.location (state_of r) = ShopManagement.location s
         /\ added w r
            = [SetState "isLoading"; Request sent; SetState "shop"; SetState "isLoading"]
     | Err e =>
         ShopManagement.shop (state_of r) = ShopManagement.shop s
         /\ ShopManagement.shopName (state_of r) = ShopManagement.shopName s
         /\ ShopManagement.location (state_of r) = ShopManagement.location s
         /\ added w r
            = [SetState "isLoading"; Request sent]
              ++ (if decide (Error.status e = Some 404%nat) then []
                  else [ToastError "Failed to fetch shop details"])
              ++ [SetState "isLoading"]
     end
  /\ ShopManagement.productName (state_of r) = ShopManagement.productName s
  /\ ShopManagement.productPrice (state_of r) = ShopManagement.productPrice s
  /\ ShopManagement.productCategory (state_of r) = ShopManagement.productCategory s
  /\ ShopManagement.editingProduct (state_of r) = ShopManagement.editingProduct s.
Proof.
  cbv zeta. autounfold with more_views. evaluate.
  rewrite requests_after_busy_flag.
  destruct (myShop _ _ _) as [[d|]|e]; evaluate.
  - read. repeat split; reflexivity.
  - read. repeat split; reflexivity.
  - destruct (Error.status e) as [st|]; evaluate.
    + destruct (Nat.eqb_spec st 404) as [->|Hne]; evaluate; read.
      * rewrite decide_True by reflexivity. repeat split; reflexivity.
      * rewrite decide_False by congruence. repeat split; reflexivity.
    + read. rewrite decide_False by discriminate. repeat split; reflexivity.
Qed.

(** Creating a shop: with a blank name or a blank location (empty once
    trimmed) nothing is sent, a toast asks to fill in all fields and
    the state is kept; otherwise the first thing to leave is one POST
    /shop with the trimmed name and location and no products. *)
Theorem handleCreateShop_guard (c s : ShopManagement.State) (w : world) :
  let r := ShopManagement.handleCreateShop c s w in
  if JS.truthyString (JS.trim (ShopManagement.shopName c))
     && JS.truthyString (JS.trim (ShopManagement.location c))
  then
    exists rest,
      added w r
      = SetState "isCreating"
        :: Request
             (Api.interceptor (localStorage w)
                (Api.post "/shop"
                   (Api.NewShop
                      {| ShopData.shopName := JS.trim (ShopManagement.shopName c);
                         ShopData.location := JS.trim (ShopManagement.location c);
                         ShopData.products := [] |})))
        :: rest
      /\ ShopManagement.isCreating (state_of r) = false
  else
    added w r = [ToastError "Please fill in all fields"] /\ state_of r = s.
Proof.
  cbv zeta. unfold ShopManagement.handleCreateShop. autounfold with more_views.
  destruct (JS.truthyString (JS.trim (ShopManagement.shopName c)));
    destruct (JS.truthyString (JS.trim (ShopManagement.location c)));
    cbn [negb orb andb].
  2-4: (evaluate; read; split; reflexivity).
  answers; read; eexists; split; reflexivity.
Qed.

(** Saving the shop details: with no shop held, or a blank name or
    location, nothing is sent and a toast asks to fill in all fields;
    otherwise the first thing to leave is one PUT /shop/<id> with the
    trimmed name and location and the products of the shop held,
    unchanged. *)
Theorem handleUpdateShop_keeps_products (c s : ShopManagement.State) (w : world) :
  let r := ShopManagement.handleUpdateShop c s w in
  match ShopManagement.shop c with
  | Some sh =>
      if JS.truthyString (JS.trim (ShopManagement.shopName c))
         && JS.truthyString (JS.trim (ShopManagement.location c))
      then
        exists rest,
          added w r
          = Request
              (Api.interceptor (localStorage w)
                 (Api.put ("/shop/" ++ Shop._id sh)
                    (Api.NewShop
                       {| ShopData.shopName := JS.trim (ShopManagement.shopName c);
                          ShopData.location := JS.trim (ShopManagement.location c);
                          ShopData.products := Shop.products sh |})))
            :: rest
      else added w r = [ToastError "Please fill in all fields"] /\ state_of r = s
  | None => added w r = [ToastError "Please fill in all fields"] /\ state_of r = s
  end.
Proof.
  cbv zeta. unfold ShopManagement.handleUpdateShop. autounfold with more_views.
  destruct (ShopManagement.shop c) as [sh|]; [|evaluate; read; split; reflexivity].
  destruct (JS.truthyString (JS.trim (ShopManagement.shopName c)));
    destruct (JS.truthyString (JS.trim (ShopManagement.location c)));
    cbn [negb orb andb].
  2-4: (evaluate; read; split; reflexivity).
  answers; read; eexists; reflexivity.
Qed.


Lemma truthy_not_empty (x : string) : JS.truthyString x = true <-> x <> "".
Proof. destruct x; simpl; split; congruence. Qed.

(** The two product handlers never send a product the form would turn
    down: every request they issue that carries a product has a
    non-empty name and category and a price that is a number above
    zero by the handler's test. *)
Theorem product_requests_are_checked (c s : ShopManagement.State) (w : world) :
  Forall productChecked (requests (added w (ShopManagement.handleAddProduct c s w)))
  /\ Forall productChecked (requests (added w (ShopManagement.handleUpdateProduct c s w))).
Proof.
  assert (Hget : forall ls u ps, productChecked (Api.interceptor ls (Api.get u ps))).
  { intros. unfold productChecked. rewrite interceptor_data. exact I. }
  split.
  - unfold ShopManagement.handleAddProduct. autounfold with more_views.
    destruct (ShopManagement.shop c) as [sh|]; [|evaluate; read; constructor].
    destruct (JS.truthyString (JS.trim (ShopManagement.productName c))) eqn:Hname;
      cbn [negb orb]; [|evaluate; read; constructor].
    destruct (JS.truthyString (ShopManagement.productPrice c)) eqn:Hprice;
      cbn [negb orb]; [|evaluate; read; constructor].
    destruct (JS.truthyString (JS.trim (ShopManagement.productCategory c))) eqn:Hcat;
      cbn [negb orb]; [|evaluate; read; constructor].
    cbv zeta.
    destruct (JS.isNaN (parseFloat (ShopManagement.productPrice c))) eqn:Hnan;
      cbn [orb]; [evaluate; read; constructor|].
    destruct (PrimFloat.leb (parseFloat (ShopManagement.productPrice c)) 0) eqn:Hleb;
      [evaluate; read; constructor|].
    apply truthy_not_empty in Hname, Hcat.
    answers; read; repeat constructor; try apply Hget;
      unfold productChecked; rewrite interceptor_data; simpl; auto.
  - unfold ShopManagement.handleUpdateProduct. autounfold with more_views.
    destruct (ShopManagement.shop c) as [sh|]; [|evaluate; read; constructor].
    destruct (ShopManagement.editingProduct c) as [editing|]; [|evaluate; read; constructor].
    destruct (Product._id editing) as [productId|]; [|evaluate; read; constructor].
    destruct (JS.truthyString productId); [|evaluate; read; constructor].
    destruct (JS.truthyString (JS.trim (ShopManagement.productName c))) eqn:Hname;
      cbn [negb orb]; [|evaluate; read; constructor].
    destruct (JS.truthyString (ShopManagement.productPrice c)) eqn:Hprice;
      cbn [negb orb]; [|evaluate; read; constructor].
    destruct (JS.truthyString (JS.trim (ShopManagement.productCategory c))) eqn:Hcat;
      cbn [negb orb]; [|evaluate; read; constructor].
    cbv zeta.
    destruct (JS.isNaN (parseFloat (ShopManagement.productPrice c))) eqn:Hnan;
      cbn [orb]; [evaluate; read; constructor|].
    destruct (PrimFloat.leb (parseFloat (ShopManagement.productPrice c)) 0) eqn:Hleb;
      [evaluate; read; constructor|].
    apply truthy_not_empty in Hname, Hcat.
    answers; read; repeat constructor; try apply Hget;
      unfold productChecked; rewrite interceptor_data; simpl; auto.
Qed.

(** Adding a product the backend takes clears the three inputs of the
    product form, whatever the fetch that follows answers; when the
    backend turns it down the inputs keep what was typed and the toast
    shows its message or "Failed to add product".  The adding flag is
    down in both cases. *)
Theorem added_product_clears_the_form (c s : ShopManagement.State) (w : world)
  (sh : Shop.t) :
  ShopManagement.shop c = Some sh ->
  JS.trim (ShopManagement.productName c) <> "" ->
  ShopManagement.productPrice c <> "" ->
  JS.trim (ShopManagement.productCategory c) <> "" ->
  JS.isNaN (parseFloat (ShopManagement.productPrice c)) = false ->
  PrimFloat.leb (parseFloat (ShopManagement.productPrice c)) 0 = false ->
  let sent :=
    Api.interceptor (localStorage w)
      (Api.post ("/shop/" ++ Shop._id sh ++ "/products")
         (Api.NewProduct
            {| Product._id := None;
               Product.name := JS.trim (ShopManagement.productName c);
               Product.price := parseFloat (ShopManagement.productPrice c);
               Product.category := JS.trim (ShopManagement.productCategory c) |})) in
  let r := ShopManagement.handleAddProduct c s w in
  ShopManagement.isAddingProduct (state_of r) = false
  /\ hd_error (requests (added w r)) = Some sent
  /\ match ack (backend w) (List.length (requests (trace w))) sent with
     | Ok _ =>
         ShopManagement.productName (state_of r) = ""
         /\ ShopManagement.productPrice (state_of r) = ""
         /\ ShopManagement.productCategory (state_of r) = ""
         /\ In (ToastSuccess "Product added successfully!") (added w r)
     | Err e =>
         ShopManagement.productName (state_of r) = ShopManagement.productName s
         /\ ShopManagement.productPrice (state_of r) = ShopManagement.productPrice s
         /\ ShopManagement.productCategory (state_of r) = ShopManagement.productCategory s
         /\ ShopManagement.shop (state_of r) = ShopManagement.shop s
         /\ added w r
            = [SetState "isAddingProduct"; Request sent;
               ToastError (message_or e "Failed to add product");
               SetState "isAddingProduct"]
     end.
Proof.
  intros Hshop Hname Hprice Hcat Hnan Hleb.
  apply truthy_not_empty in Hname, Hprice, Hcat.
  cbv zeta. unfold ShopManagement.handleAddProduct. autounfold with more_views.
  rewrite Hshop, Hname, Hprice, Hcat. cbn [negb orb]. cbv zeta.
  rewrite Hnan, Hleb. cbn [orb]. evaluate.
  rewrite requests_after_busy_flag.
  destruct (ack _ _ _) as [[]|e]; answers; read; repeat split; simpl; tauto.
Qed.

(** Saving an edited product the backend takes closes the edit (no
    product is being edited) and clears the three inputs; when the
    backend turns it down the edit stays open with what was typed. *)
Theorem updated_product_closes_the_edit (c s : ShopManagement.State) (w : world)
  (sh : Shop.t) (editing : Product.t) (productId : string) :
  ShopManagement.shop c = Some sh ->
  ShopManagement.editingProduct c = Some editing ->
  Product._id editing = Some productId ->
  productId <> "" ->
  JS.trim (ShopManagement.productName c) <> "" ->
  ShopManagement.productPrice c <> "" ->
  JS.trim (ShopManagement.productCategory c) <> "" ->
  JS.isNaN (parseFloat (ShopManagement.productPrice c)) = false ->
  PrimFloat.leb (parseFloat (ShopManagement.productPrice c)) 0 = false ->
  let sent :=
    Api.interceptor (localStorage w)
      (Api.put ("/shop/" ++ Shop._id sh ++ "/products/" ++ productId)
         (Api.NewProduct
            {| Product._id := None;
               Product.name := JS.trim (ShopManagement.productName c);
               Product.price := parseFloat (ShopManagement.productPrice c);
               Product.category := JS.trim (ShopManagement.productCategory c) |})) in
  let r := ShopManagement.handleUpdateProduct c s w in
  hd_error (requests (added w r)) = Some sent
  /\ match ack (backend w) (List.length (requests (trace w))) sent with
     | Ok _ =>
         ShopManagement.editingProduct (state_of r) = None
         /\ ShopManagement.productName (state_of r) = ""
         /\ ShopManagement.productPrice (state_of r) = ""
         /\ ShopManagement.productCategory (state_of r) = ""
     | Err e =>
         state_of r = s
         /\ added w r
            = [Request sent; ToastError (message_or e "Failed to update product")]
     end.
Proof.
  intros Hshop Hedit Hid Hpid Hname Hprice Hcat Hnan Hleb.
  apply truthy_not_empty in Hpid, Hname, Hprice, Hcat.
  cbv zeta. unfold ShopManagement.handleUpdateProduct. autounfold with more_views.
  rewrite Hshop, Hedit, Hid, Hpid, Hname, Hprice, Hcat. cbn [negb orb]. cbv zeta.
  rewrite Hnan, Hleb. cbn [orb]. evaluate.
  destruct (ack _ _ _) as [[]|e]; answers; read; repeat split; simpl; tauto.
Qed.

(** Deleting a product: a request leaves exactly when a shop is held,
    the product has a non-empty id and the seller confirms; otherwise
    nothing at all happens, no toast and no change of state. *)
Theorem delete_needs_a_confirmation (c s : ShopManagement.State) (w : world)
  (product : Product.t) :
  let r := ShopManagement.deleteClick c product s w in
  (requests (added w r) <> []
   <-> is_Some (ShopManagement.shop c)
       /\ (exists productId, Product._id product = Some productId /\ productId <> "")
       /\ confirm "Are you sure you want to delete this product?" = true)
  /\ (requests (added w r) = [] -> added w r = [] /\ state_of r = s).
Proof.
  cbv zeta. unfold ShopManagement.deleteClick, ShopManagement.handleDeleteProduct.
  autounfold with more_views.
  destruct (Product._id product) as [productId|].
  2:{ evaluate. read. split; [split; [congruence|]|auto].
      intros (_ & (? & ? & _) & _); discriminate. }
  destruct (JS.truthyString productId) eqn:Hpid.
  2:{ evaluate. read. split; [split; [congruence|]|auto].
      intros (_ & (? & [= <-] & Hne) & _). apply truthy_not_empty in Hne. congruence. }
  apply truthy_not_empty in Hpid.
  destruct (ShopManagement.shop c) as [sh|].
  2:{ evaluate. read. split; [split; [congruence|]|auto].
      intros ([? ?] & _); discriminate. }
  destruct (confirm _) eqn:Hconfirm; cbn [negb].
  2:{ evaluate. read. split; [split; [congruence|]|auto].
      intros (_ & _ & ?); discriminate. }
  answers; read; (split; [split; [intros _; eauto 6 | discriminate] | discriminate]).
Qed.

(** Opening the edit of a product and saving it untouched sends the
    product back as it is: for a product with an id, a trimmed
    non-empty name and category and a price above zero whose text
    parses back to it, the PUT carries the same name, price and
    category. *)
Theorem edit_then_save_sends_the_product (toString : float -> string)
  (s : ShopManagement.State) (w : world) (sh : Shop.t) (product : Product.t)
  (productId : string) :
  ShopManagement.shop s = Some sh ->
  Product._id product = Some productId ->
  productId <> "" ->
  Product.name product <> "" ->
  JS.trim (Product.name product) = Product.name product ->
  Product.category product <> "" ->
  JS.trim (Product.category product) = Product.category product ->
  toString (Product.price product) <> "" ->
  parseFloat (toString (Product.price product)) = Product.price product ->
  JS.isNaN (Product.price product) = false ->
  PrimFloat.leb (Product.price product) 0 = false ->
  let opened := ShopManagement.startEditingProduct toString product s w in
  let r := ShopManagement.handleUpdateProduct (state_of opened) (state_of opened)
             (world_of opened) in
  hd_error (requests (added (world_of opened) r))
  = Some
      (Api.interceptor (localStorage w)
         (Api.put ("/shop/" ++ Shop._id sh ++ "/products/" ++ productId)
            (Api.NewProduct
               {| Product._id := None;
                  Product.name := Product.name product;
                  Product.price := Product.price product;
                  Product.category := Product.category product |}))).
Proof.
  intros Hshop Hid Hpid Hname Htrim Hcat Htrimc Htext Hparse Hnan Hleb.
  apply truthy_not_empty in Hpid, Hname, Hcat, Htext.
  cbv zeta. unfold ShopManagement.startEditingProduct, ShopManagement.handleUpdateProduct.
  autounfold with more_views. evaluate.
  rewrite Hshop, Hid, Hpid, Htrim, Htrimc, Hname, Htext, Hcat. cbn [negb orb]. cbv zeta.
  rewrite Hparse, Hnan, Hleb. cbn [orb].
  answers; read; reflexivity.
Qed.

End HandlersMore.

(** ** What the views render *)

Section Rendering.

(** The buyer's dashboard fetches the whole list: one GET /shop with
    no query parameter.  The answer replaces the list, a failure keeps
    it and shows a toast; the loading flag is down at the end and the
    search box is not touched. *)
Theorem buyer_fetchShops_settles (s : BuyerDashboard.State) (w : world) :
  let r := BuyerDashboard.fetchShops s w in
  let sent := Api.interceptor (localStorage w) (Api.get "/shop" ∅) in
  BuyerDashboard.isLoading (state_of r) = false
  /\ BuyerDashboard.searchQuery (state_of r) = BuyerDashboard.searchQuery s
  /\ match shops (backend w) (List.length (requests (trace w))) sent with
     | Ok data =>
         BuyerDashboard.shops (state_of r) = data
         /\ added w r = [Request sent; SetState "shops"; SetState "isLoading"]
     | Err _ =>
         BuyerDashboard.shops (state_of r) = BuyerDashboard.shops s
         /\ added w r
            = [Request sent; ToastError "Failed to fetch shops"; SetState "isLoading"]
     end.
Proof.
  cbv zeta.
  unfold BuyerDashboard.fetchShops, shopAPI.getShops, BuyerDashboard.setShops,
    BuyerDashboard.setIsLoading, try_catch_finally, toast_error, emit, set, send,
    mbind, M_bind, bind, record, state_of, world_of.
  change (Api.getShops_params None None None) with (∅ : gmap string Api.param).
  destruct (shops _ _ _); cbn [fst snd BuyerDashboard.isLoading BuyerDashboard.shops
                                 BuyerDashboard.searchQuery];
    (erewrite added_app by (cbn [snd trace world_of]; unfold world_of; cbn [snd trace];
                            rewrite <- ?app_assoc; reflexivity));
    repeat split; reflexivity.
Qed.

Lemma filter_nil_none {A} (f : A -> bool) (l : list A) :
  List.filter f l = [] <-> Forall (fun x => f x = false) l.
Proof.
  induction l as [|x l IH]; simpl.
  - split; [constructor | reflexivity].
  - destruct (f x) eqn:Hx.
    + split; [discriminate | intros Hall; inversion Hall; congruence].
    + rewrite IH. split; [intros Hl; constructor; assumption | intros Hall; inversion Hall; assumption].
Qed.

Lemma length_zero {A} (l : list A) : (List.length l =? 0)%nat = true <-> l = [].
Proof. destruct l; simpl; split; congruence. Qed.

(** What the list area of the home view shows, and why: the skeleton
    exactly while loading; "No shops yet" exactly when nothing was
    fetched; "No matching shops found" exactly when shops were fetched
    and none matches the search; otherwise the grid of the filtered
    shops, which is then not empty. *)
Theorem home_list_area (st : Home.State) :
  match Home.render st with
  | Skeleton => Home.isLoading st = true
  | EmptyCard heading text =>
      Home.isLoading st = false
      /\ ((heading = "No shops yet"
           /\ text = "Check back soon for new shops and products!"
           /\ Home.shops st = [])
          \/ (heading = "No matching shops found"
              /\ text = "Try adjusting your search terms"
              /\ Home.shops st <> []
              /\ Forall (fun shop => ~ matches (Home.searchQuery st) shop) (Home.shops st)))
  | Grid cards =>
      Home.isLoading st = false /\ cards = Home.filteredShops st /\ cards <> []
  end.
Proof.
  unfold Home.render.
  destruct (Home.isLoading st); [reflexivity|].
  destruct (List.length (Home.filteredShops st) =? 0)%nat eqn:Hnone.
  - split; [reflexivity|].
    destruct (List.length (Home.shops st) =? 0)%nat eqn:Hshops.
    + left. apply length_zero in Hshops. auto.
    + right. repeat split.
      * intros Hnil. apply length_zero in Hnil. congruence.
      * apply length_zero in Hnone. unfold Home.filteredShops in Hnone.
        apply filter_nil_none in Hnone.
        eapply List.Forall_impl; [|exact Hnone].
        intros shop Hf Hm. apply shop_filter_matches in Hm. cbv zeta in Hm. congruence.
  - split; [reflexivity|]. split; [reflexivity|].
    intros Hnil. apply length_zero in Hnil. congruence.
Qed.

(** The same for the buyer's dashboard. *)
Theorem buyer_list_area (st : BuyerDashboard.State) :
  match BuyerDashboard.render st with
  | Skeleton => BuyerDashboard.isLoading st = true
  | EmptyCard heading text =>
      BuyerDashboard.isLoading st = false
      /\ ((heading = "No shops yet"
           /\ text = "Check back soon for new shops and products!"
           /\ BuyerDashboard.shops st = [])
          \/ (heading = "No matching shops found"
              /\ text = "Try adjusting your search terms"
              /\ BuyerDashboard.shops st <> []
              /\ Forall (fun shop => ~ matches (BuyerDashboard.searchQuery st) shop)
                   (BuyerDashboard.shops st)))
  | Grid cards =>
      BuyerDashboard.isLoading st = false
      /\ cards = BuyerDashboard.filteredShops st /\ cards <> []
  end.
Proof.
  unfold BuyerDashboard.render.
  destruct (BuyerDashboard.isLoading st); [reflexivity|].
  destruct (List.length (BuyerDashboard.filteredShops st) =? 0)%nat eqn:Hnone.
  - split; [reflexivity|].
    destruct (List.length (BuyerDashboard.shops st) =? 0)%nat eqn:Hshops.
    + left. apply length_zero in Hshops. auto.
    + right. repeat split.
      * intros Hnil. apply length_zero in Hnil. congruence.
      * apply length_zero in Hnone. unfold BuyerDashboard.filteredShops in Hnone.
        apply filter_nil_none in Hnone.
        eapply List.Forall_impl; [|exact Hnone].
        intros shop Hf Hm. apply shop_filter_matches in Hm. cbv zeta in Hm. congruence.
  - split; [reflexivity|]. split; [reflexivity|].
    intros Hnil. apply length_zero in Hnil. congruence.
Qed.

(** With an empty search box the home view never says "No matching
    shops found": once loaded it shows "No shops yet" or every fetched
    shop, in the order fetched. *)
Theorem empty_search_shows_everything (st : Home.State) :
  Home.searchQuery st = "" ->
  Home.isLoading st = false ->
  Home.render st
  = match Home.shops st with
    | [] => EmptyCard "No shops yet" "Check back soon for new shops and products!"
    | fetched => Grid fetched
    end.
Proof.
  intros Hquery Hloaded. unfold Home.render. rewrite Hloaded.
  assert (Hall : Home.filteredShops st = Home.shops st).
  { unfold Home.filteredShops. rewrite Hquery. apply filter_all. intros shop. simpl.
    rewrite includes_empty. reflexivity. }
  rewrite Hall. destruct (Home.shops st); reflexivity.
Qed.

(** A shop card accounts for every product: it lists the first three
    at most, and the line "+N more products" appears exactly when there
    are more than three, with N the number left out. *)
Theorem card_accounts_for_every_product (shop : Shop.t) :
  ShopCard.shownProducts shop `prefix_of` Shop.products shop
  /\ (List.length (ShopCard.shownProducts shop) <= 3)%nat
  /\ (List.length (ShopCard.shownProducts shop) + default 0%nat (ShopCard.moreProducts shop)
      = List.length (Shop.products shop))%nat
  /\ (ShopCard.moreProducts shop = None <-> (List.length (Shop.products shop) <= 3)%nat)
  /\ (forall n, ShopCard.moreProducts shop = Some n -> (0 < n)%nat).
Proof.
  unfold ShopCard.shownProducts, ShopCard.moreProducts.
  split; [apply prefix_take|].
  rewrite length_firstn.
  destruct (Nat.ltb_spec 3 (List.length (Shop.products shop))); cbn [default from_option id].
  - rewrite Nat.min_l by lia. split; [lia|]. split; [lia|]. split.
    + split; [discriminate | lia].
    + intros n [= <-]. lia.
  - rewrite Nat.min_r by lia. split; [lia|]. split; [lia|]. split.
    + split; [lia | reflexivity].
    + intros n [=].
Qed.

(** For the rating the k-th star stands for, exactly the first k stars
    are drawn filled. *)
Theorem filled_stars_count (k : nat) (star : float) :
  nth_error Home.stars k = Some star ->
  Home.filledStars star = firstn (S k) Home.stars
  /\ List.length (Home.filledStars star) = S k.
Proof.
  intros Hk.
  do 5 (destruct k as [|k]; [injection Hk as <-; split; reflexivity|]).
  destruct k; discriminate.
Qed.

End Rendering.

(** ** More of the forms *)

Section FormsMore.
Context `{Runtime}.

Lemma in_check {A} (b : bool) (x y : A) :
  In y (if b then [] else [x]) <-> b = false /\ y = x.
Proof. destruct b; simpl; split; intros; intuition congruence. Qed.

(** Each field of the signup form reports its own error, exactly when
    that field is invalid and whatever the other fields hold. *)
Theorem signup_errors_by_field (input : Signup.Form.t) :
  let issues := snd (Signup.signupSchema input) in
  (In (Zod.Custom "Name must be at least 2 characters") issues
   <-> (JS.length (Signup.Form.name input) < 2)%nat)
  /\ (In (Zod.Custom "Invalid email address") issues
      <-> isEmail (Signup.Form.email input) = false)
  /\ (In (Zod.Custom "Password must be at least 6 characters") issues
      <-> (JS.length (Signup.Form.password input) < 6)%nat)
  /\ (In (Zod.Custom "Please select a role") issues
      <-> Signup.Form.userType input = None)
  /\ (In Zod.InvalidEnumValue issues
      <-> exists role,
            Signup.Form.userType input = Some role /\ role <> "buyer" /\ role <> "seller").
Proof.
  cbv zeta. unfold Signup.signupSchema, Zod.string_min, Zod.string_email. cbn [snd fst].
  assert (Henum : forall y,
            In y (snd (Zod.enum ["buyer"; "seller"] "Please select a role"
                         (Signup.Form.userType input)))
            <-> (y = Zod.Custom "Please select a role" /\ Signup.Form.userType input = None)
                \/ (y = Zod.InvalidEnumValue
                    /\ exists role, Signup.Form.userType input = Some role
                                    /\ role <> "buyer" /\ role <> "seller")).
  { intros y. unfold Zod.enum. destruct (Signup.Form.userType input) as [role|]; simpl.
    - destruct (String.eqb_spec role "buyer") as [->|Hb]; simpl.
      + split; [tauto|]. intros [[_ ?]|(_ & r & [= <-] & Hr & _)]; congruence.
      + destruct (String.eqb_spec role "seller") as [->|Hs]; simpl.
        * split; [tauto|]. intros [[_ ?]|(_ & r & [= <-] & _ & Hr)]; congruence.
        * split.
          -- intros [<-|[]]. right. eauto.
          -- intros [[_ ?]|(-> & _)]; [discriminate | tauto].
    - split.
      + intros [<-|[]]. tauto.
      + intros [[-> _]|(_ & r & ? & _)]; [tauto | discriminate]. }
  split; [|split; [|split; [|split]]];
    rewrite !in_app_iff, !in_check, Henum, !Nat.leb_gt;
    intuition (try discriminate; eauto);
    repeat match goal with Hx : ex _ |- _ => destruct Hx as (? & ?) end;
    intuition (try discriminate; eauto).
Qed.


Lemma shorter_than_one (x : string) : (JS.length x < 1)%nat <-> x = "".
Proof. destruct x; simpl; split; intros; try reflexivity; try lia; discriminate. Qed.

Lemma product_issues (p : SellerDashboard.ProductForm.t) (y : Zod.issue) :
  In y (snd (SellerDashboard.productSchema p))
  <-> (y = Zod.Custom "Product name is required" /\ SellerDashboard.ProductForm.name p = "")
      \/ (y = Zod.InvalidType
          /\ JS.isNaN (Number (SellerDashboard.ProductForm.price p)) = true)
      \/ (y = Zod.Custom "Price must be positive"
          /\ JS.isNaN (Number (SellerDashboard.ProductForm.price p)) = false
          /\ PrimFloat.ltb 0 (Number (SellerDashboard.ProductForm.price p)) = false)
      \/ (y = Zod.Custom "Category is required"
          /\ SellerDashboard.ProductForm.category p = "").
Proof.
  unfold SellerDashboard.productSchema, Zod.string_min, Zod.coerce_number_positive.
  cbn [snd fst]. rewrite !in_app_iff, !in_check, !Nat.leb_gt, !shorter_than_one.
  destruct (JS.isNaN (Number (SellerDashboard.ProductForm.price p))).
  - simpl. intuition (try discriminate; eauto).
  - rewrite in_check. intuition (try discriminate; eauto).
Qed.

Lemma shop_issues (input : SellerDashboard.Form.t) (y : Zod.issue) :
  In y (snd (SellerDashboard.shopSchema input))
  <-> (y = Zod.Custom "Shop name must be at least 2 characters"
       /\ (JS.length (SellerDashboard.Form.shopName input) < 2)%nat)
      \/ (y = Zod.Custom "Location is required"
          /\ (JS.length (SellerDashboard.Form.location input) < 2)%nat)
      \/ (exists p, In p (SellerDashboard.Form.products input)
                    /\ In y (snd (SellerDashboard.productSchema p)))
      \/ (y = Zod.Custom "At least one product is required"
          /\ SellerDashboard.Form.products input = []).
Proof.
  unfold SellerDashboard.shopSchema, Zod.string_min, Zod.array_min.
  cbn [snd fst]. rewrite !in_app_iff, !in_check, !Nat.leb_gt, in_flat_map.
  assert (Hlen : (List.length (SellerDashboard.Form.products input) < 1)%nat
                 <-> SellerDashboard.Form.products input = []).
  { destruct (SellerDashboard.Form.products input); simpl; split; intros;
      try reflexivity; try lia; discriminate. }
  rewrite Hlen. intuition (try discriminate; eauto).
Qed.

(** Each check of the shop form reports its own error, exactly when it
    fails: the two shop fields and the product list on their own, and
    each product message when some product row fails that check.
    "Location is required" is also what a location of one character
    gets. *)
Theorem shop_errors_by_field (input : SellerDashboard.Form.t) :
  let issues := snd (SellerDashboard.shopSchema input) in
  let products := SellerDashboard.Form.products input in
  (In (Zod.Custom "Shop name must be at least 2 characters") issues
   <-> (JS.length (SellerDashboard.Form.shopName input) < 2)%nat)
  /\ (In (Zod.Custom "Location is required") issues
      <-> (JS.length (SellerDashboard.Form.location input) < 2)%nat)
  /\ (In (Zod.Custom "At least one product is required") issues <-> products = [])
  /\ (In (Zod.Custom "Product name is required") issues
      <-> exists p, In p products /\ SellerDashboard.ProductForm.name p = "")
  /\ (In (Zod.Custom "Category is required") issues
      <-> exists p, In p products /\ SellerDashboard.ProductForm.category p = "")
  /\ (In Zod.InvalidType issues
      <-> exists p, In p products
                    /\ JS.isNaN (Number (SellerDashboard.ProductForm.price p)) = true)
  /\ (In (Zod.Custom "Price must be positive") issues
      <-> exists p, In p products
                    /\ JS.isNaN (Number (SellerDashboard.ProductForm.price p)) = false
                    /\ PrimFloat.ltb 0 (Number (SellerDashboard.ProductForm.price p)) = false).
Proof.
  cbv zeta.
  repeat split; rewrite shop_issues.
  all: try (intros [[? ?]|[[? ?]|[(p & Hin & Hp)|[? ?]]]]; try discriminate; try assumption;
            apply product_issues in Hp;
            destruct Hp as [[? ?]|[[? ?]|[(? & ? & ?)|[? ?]]]]; try discriminate; eauto).
  all: try (intros; tauto).
  all: intros (p & Hin & Hp); right; right; left; exists p; (split; [exact Hin|]);
    apply product_issues; tauto.
Qed.

Lemma signup_edit_keeps_role (f : Signup.Form.t) (e : Signup.edit) :
  (Signup.Form.userType f = Some "buyer" \/ Signup.Form.userType f = Some "seller") ->
  Signup.Form.userType (Signup.apply_edit f e) = Some "buyer"
  \/ Signup.Form.userType (Signup.apply_edit f e) = Some "seller".
Proof.
  intros Hf. destruct e as [text|text|text|k]; simpl; try exact Hf.
  destruct k as [|[|k]]; simpl; auto.
  destruct k; simpl; exact Hf.
Qed.

Lemma signup_edits_keep_role (edits : list Signup.edit) (f : Signup.Form.t) :
  (Signup.Form.userType f = Some "buyer" \/ Signup.Form.userType f = Some "seller") ->
  Signup.Form.userType (fold_left Signup.apply_edit edits f) = Some "buyer"
  \/ Signup.Form.userType (fold_left Signup.apply_edit edits f) = Some "seller".
Proof.
  revert f. induction edits as [|e edits IH]; intros f Hf; simpl.
  - exact Hf.
  - apply IH, signup_edit_keeps_role, Hf.
Qed.

(** Whatever the visitor types and whichever radio item is picked, the
    role of the signup form is 'buyer' or 'seller': the form opens on
    'buyer' and the radio group only offers the two.  So the role check
    of the schema never fails, and the form is accepted exactly when
    the name, the email and the password are. *)
Theorem signup_role_is_always_valid (edits : list Signup.edit) :
  let f := Signup.edited edits in
  (Signup.Form.userType f = Some "buyer" \/ Signup.Form.userType f = Some "seller")
  /\ snd (Zod.enum ["buyer"; "seller"] "Please select a role" (Signup.Form.userType f)) = []
  /\ (snd (Signup.signupSchema f) = []
      <-> (2 <= JS.length (Signup.Form.name f))%nat
          /\ isEmail (Signup.Form.email f) = true
          /\ (6 <= JS.length (Signup.Form.password f))%nat).
Proof.
  cbv zeta.
  assert (Hrole : Signup.Form.userType (Signup.edited edits) = Some "buyer"
                  \/ Signup.Form.userType (Signup.edited edits) = Some "seller").
  { apply signup_edits_keep_role. left. reflexivity. }
  split; [exact Hrole|]. split.
  - destruct Hrole as [-> | ->]; reflexivity.
  - rewrite signupSchema_nil. unfold signupAccepted. tauto.
Qed.

Lemma delete_keeps_one {A} (k : nat) (l : list A) :
  (1 < List.length l)%nat -> delete k l <> [].
Proof.
  destruct l as [|x [|y l]]; simpl; try lia. intros _.
  destruct k; simpl; discriminate.
Qed.

Lemma seller_edit_keeps_a_product (f : SellerDashboard.Form.t) (e : SellerDashboard.edit) :
  SellerDashboard.Form.products f <> [] ->
  SellerDashboard.Form.products (SellerDashboard.apply_edit f e) <> [].
Proof.
  intros Hf.
  assert (Halter : forall g k, alter g k (SellerDashboard.Form.products f) <> []).
  { intros g k Hnil. apply (f_equal (@List.length _)) in Hnil.
    rewrite length_alter in Hnil.
    destruct (SellerDashboard.Form.products f); [congruence | discriminate]. }
  destruct e; simpl; try exact Hf; try apply Halter.
  - destruct (SellerDashboard.Form.products f); discriminate.
  - destruct (Nat.ltb_spec 1 (List.length (SellerDashboard.Form.products f))); simpl.
    + apply delete_keeps_one. assumption.
    + exact Hf.
Qed.

Lemma seller_edits_keep_a_product (edits : list SellerDashboard.edit)
  (f : SellerDashboard.Form.t) :
  SellerDashboard.Form.products f <> [] ->
  SellerDashboard.Form.products (fold_left SellerDashboard.apply_edit edits f) <> [].
Proof.
  revert f. induction edits as [|e edits IH]; intros f Hf; simpl.
  - exact Hf.
  - apply IH, seller_edit_keeps_a_product, Hf.
Qed.

(** Whatever the seller types, adds and removes, the shop form keeps
    at least one product row: it opens with one, and the remove button
    is only there while there are several.  So "At least one product is
    required" is never among the errors of the form. *)
Theorem seller_form_always_has_a_product (edits : list SellerDashboard.edit) :
  let f := SellerDashboard.edited edits in
  SellerDashboard.Form.products f <> []
  /\ ~ In (Zod.Custom "At least one product is required")
         (snd (SellerDashboard.shopSchema f)).
Proof.
  cbv zeta.
  assert (Hsome : SellerDashboard.Form.products (SellerDashboard.edited edits) <> []).
  { apply seller_edits_keep_a_product. discriminate. }
  split; [exact Hsome|].
  rewrite shop_issues.
  intros [[? _]|[[? _]|[(p & _ & Hp)|[_ ?]]]]; try discriminate; try contradiction.
  apply product_issues in Hp.
  destruct Hp as [[? _]|[[? _]|[(? & _)|[? _]]]]; discriminate.
Qed.

(** An accepted shop form is sent as typed: the POST /shop carries the
    name, the location and each product's name and category verbatim
    (nothing is trimmed) and each price as the number its text coerces
    to.  When the backend takes it the form is reset; when it turns it
    down the form is kept and the toast shows its message or "Failed to
    create shop".  The loading flag is down in both cases. *)
Theorem seller_form_is_sent_as_typed (input : SellerDashboard.Form.t)
  (s : SellerDashboard.State) (w : world) :
  match Zod.safeParse SellerDashboard.shopSchema input with
  | Zod.Failure _ => True
  | Zod.Success data =>
      let r := SellerDashboard.submit input s w in
      let sent := Api.interceptor (localStorage w) (Api.post "/shop" (Api.NewShop data)) in
      data
      = {| ShopData.shopName := SellerDashboard.Form.shopName input;
           ShopData.location := SellerDashboard.Form.location input;
           ShopData.products :=
             map (fun p =>
                    {| Product._id := None;
                       Product.name := SellerDashboard.ProductForm.name p;
                       Product.price := Number (SellerDashboard.ProductForm.price p);
                       Product.category := SellerDashboard.ProductForm.category p |})
                 (SellerDashboard.Form.products input) |}
      /\ SellerDashboard.isLoading (state_of r) = false
      /\ match ack (backend w) (List.length (requests (trace w))) sent with
         | Ok _ =>
             added w r
             = [SetState "isLoading"; Request sent;
                ToastSuccess "Shop created successfully!"; FormReset; SetState "isLoading"]
         | Err e =>
             added w r
             = [SetState "isLoading"; Request sent;
                ToastError (message_or e "Failed to create shop"); SetState "isLoading"]
         end
  end.
Proof.
  pose proof (safeParse_cases SellerDashboard.shopSchema input) as Hcases.
  unfold SellerDashboard.submit, handleSubmit.
  destruct (Zod.safeParse SellerDashboard.shopSchema input) as [data | issues]; [|exact I].
  destruct Hcases as [-> _]. cbv zeta. split; [reflexivity|].
  unfold SellerDashboard.onSubmit, shopAPI.createShop, try_catch_finally, toast_success,
    toast_error, emit, set, send, mbind, M_bind, bind, record, state_of.
  cbn [fst snd trace localStorage backend]. rewrite requests_after_busy_flag.
  destruct (ack _ _ _) as [[]|e]; cbn [fst snd trace localStorage backend];
    (split; [reflexivity|]); apply added_app; unfold world_of; cbn [snd trace];
    rewrite <- !app_assoc; reflexivity.
Qed.

End FormsMore.

(** ** What the views leave alone *)

Section Frame.
Context `{Runtime}.

Lemma untouched_refl (w : world) : untouched w w.
Proof. repeat split. exists []. symmetry. apply app_nil_r. Qed.

Lemma untouched_trans (w1 w2 w3 : world) :
  untouched w1 w2 -> untouched w2 w3 -> untouched w1 w3.
Proof.
  intros (Hs & Ha & Hu & Hb & new & Ht) (Hs' & Ha' & Hu' & Hb' & new' & Ht').
  repeat split; try congruence.
  exists (new ++ new'). rewrite Ht', Ht, app_assoc. reflexivity.
Qed.

Lemma untouched_record (e : event) (w : world) : untouched w (record e w).
Proof. repeat split. exists [e]. reflexivity. Qed.

Lemma framed_ret {S A} (a : A) : framed (mret a : M S A).
Proof. intros s w. apply untouched_refl. Qed.

Lemma framed_bind {S A B} (m : M S A) (k : A -> M S B) :
  framed m -> (forall a, framed (k a)) -> framed (m ≫= k).
Proof.
  intros Hm Hk s w. specialize (Hm s w).
  unfold mbind, M_bind, bind, world_of in *.
  destruct (m s w) as [[[a|e] s'] w']; simpl in *.
  - eapply untouched_trans; [exact Hm | apply Hk].
  - exact Hm.
Qed.

Lemma framed_try_catch {S A} (body : M S A) handler :
  framed body -> (forall e, framed (handler e)) -> framed (try_catch body handler).
Proof.
  intros Hb Hh s w. specialize (Hb s w).
  unfold try_catch, world_of in *.
  destruct (body s w) as [[[a|e] s'] w']; simpl in *.
  - exact Hb.
  - eapply untouched_trans; [exact Hb | apply Hh].
Qed.

Lemma framed_try_catch_finally {S A} (body : M S A) handler final :
  framed body -> (forall e, framed (handler e)) -> framed final ->
  framed (try_catch_finally body handler final).
Proof.
  intros Hb Hh Hf s w. specialize (Hb s w).
  unfold try_catch_finally, world_of in *.
  destruct (body s w) as [[[a|e] s1] w1]; simpl in *.
  - specialize (Hf s1 w1). unfold world_of in Hf.
    destruct (final s1 w1) as [[[?|?] s2] w2]; simpl in *;
      eapply untouched_trans; eassumption.
  - specialize (Hh e s1 w1). unfold world_of in Hh.
    destruct (handler e s1 w1) as [[o s2] w2]; simpl in *.
    specialize (Hf s2 w2). unfold world_of in Hf.
    destruct (final s2 w2) as [[[?|?] s3] w3]; simpl in *;
      (eapply untouched_trans; [exact Hb|]); eapply untouched_trans; eassumption.
Qed.

Lemma framed_emit {S} (e : event) : framed (emit e : M S unit).
Proof. intros s w. apply untouched_record. Qed.

Lemma framed_set {S} (field : string) (f : S -> S) : framed (set field f).
Proof. intros s w. apply untouched_record. Qed.

Lemma framed_send {S A} (answer : Backend -> nat -> Api.config -> result A) (c : Api.config) :
  framed (send answer c : M S A).
Proof.
  intros s w. unfold send, world_of. destruct (answer _ _ _); apply untouched_record.
Qed.

Lemma framed_getWorld {S} : framed (getWorld : M S world).
Proof. intros s w. apply untouched_refl. Qed.

Lemma framed_getState {S} : framed (getState : M S S).
Proof. intros s w. apply untouched_refl. Qed.

(** The rules above, applied down the structure of a handler. *)
Ltac frame :=
  repeat first
    [ apply framed_bind; [|intros ?]
    | apply framed_try_catch_finally; [| intros ? |]
    | apply framed_try_catch; [| intros ?]
    | apply framed_ret
    | apply framed_getWorld
    | apply framed_getState
    | apply framed_emit
    | apply framed_set
    | apply framed_send
    | match goal with
      | |- framed (match ?x with _ => _ end) => destruct x
      | |- framed (if ?x then _ else _) => destruct x
      end ].

Ltac open_views :=
  unfold Home.handleUseMyLocation, Home.fetchNearbyShops, Home.fetchShops,
    Home.handleShopClick, Home.handleSubmitReview,
    BuyerDashboard.fetchShops, SellerDashboard.onSubmit,
    ShopManagement.handleCreateShop, ShopManagement.handleUpdateShop,
    ShopManagement.handleAddProduct, ShopManagement.handleUpdateProduct,
    ShopManagement.deleteClick, ShopManagement.handleDeleteProduct,
    ShopManagement.startEditingProduct, ShopManagement.fetchMyShop,
    shopAPI.getShops, shopAPI.createShop, shopAPI.updateShop, shopAPI.getMyShop,
    shopAPI.addProduct, shopAPI.updateProduct, shopAPI.deleteProduct,
    reviewAPI.getReviews, reviewAPI.addReview,
    Home.setShops, Home.setIsLoading, Home.setSearchQuery, Home.setLocationQuery,
    Home.setSelectedShop, Home.setReviews, Home.setReviewText, Home.setRating,
    Home.setIsSubmittingReview,
    BuyerDashboard.setShops, BuyerDashboard.setIsLoading,
    ShopManagement.setShop, ShopManagement.setIsLoading, ShopManagement.setIsCreating,
    ShopManagement.setShopName, ShopManagement.setLocation, ShopManagement.setProductName,
    ShopManagement.setProductPrice, ShopManagement.setProductCategory,
    ShopManagement.setEditingProduct, ShopManagement.setIsAddingProduct,
    toast_error, toast_success, navigate.

Lemma framed_home_handler (c : Home.State) (a : Home.action) : framed (Home.handler c a).
Proof. destruct a; simpl; open_views; frame. Qed.

Lemma framed_home_session (acts : list Home.action) : framed (Home.session acts).
Proof.
  induction acts as [|a acts IH]; simpl.
  - apply framed_ret.
  - apply framed_bind; [|intros _; exact IH].
    apply framed_try_catch; [|intros _; apply framed_ret].
    intros s w. unfold Home.dispatch. apply framed_home_handler.
Qed.

(** Fetching, searching, opening a shop, rating, reviewing and managing
    a shop and its products leave the session alone: through the first
    fetch of the home view and every sequence of its actions (typing a
    search or a location, asking for nearby shops, clicking a card or a
    star, typing and submitting a review), through the fetch of the
    buyer's dashboard, the submission of the seller's form, and the
    fetch, create, update, add, save and delete handlers of the shop
    management view, local storage and the session stay as they were,
    so the token the interceptor attaches is the same before and
    after; the trace only grows.  The logout button of the four views
    is not among these handlers: [handleLogout] hands over to
    [logout()] of the session context, whose work is to end the
    session. *)
Theorem views_leave_the_session_alone :
  (forall acts s w, untouched w (world_of ((Home.mount;; Home.session acts) s w)))
  /\ (forall s w, untouched w (world_of (BuyerDashboard.fetchShops s w)))
  /\ (forall input s w, untouched w (world_of (SellerDashboard.submit input s w)))
  /\ (forall s w, untouched w (world_of (ShopManagement.fetchMyShop s w)))
  /\ (forall c s w, untouched w (world_of (ShopManagement.handleCreateShop c s w)))
  /\ (forall c s w, untouched w (world_of (ShopManagement.handleUpdateShop c s w)))
  /\ (forall c s w, untouched w (world_of (ShopManagement.handleAddProduct c s w)))
  /\ (forall c s w, untouched w (world_of (ShopManagement.handleUpdateProduct c s w)))
  /\ (forall c product s w,
        untouched w (world_of (ShopManagement.deleteClick c product s w))).
Proof.
  assert (Hhome : forall acts, framed (Home.mount;; Home.session acts)).
  { intros acts. apply framed_bind; [unfold Home.mount; open_views; frame|].
    intros _. apply framed_home_session. }
  assert (Hbuyer : framed BuyerDashboard.fetchShops) by (open_views; frame).
  assert (Hseller : forall input, framed (SellerDashboard.submit input)).
  { intros input. unfold SellerDashboard.submit, handleSubmit. open_views. frame. }
  assert (Hfetch : framed ShopManagement.fetchMyShop) by (open_views; frame).
  assert (Hcreate : forall c, framed (ShopManagement.handleCreateShop c))
    by (intros c; open_views; frame).
  assert (Hupdate : forall c, framed (ShopManagement.handleUpdateShop c))
    by (intros c; open_views; frame).
  assert (Hadd : forall c, framed (ShopManagement.handleAddProduct c))
    by (intros c; open_views; frame).
  assert (Hsave : forall c, framed (ShopManagement.handleUpdateProduct c))
    by (intros c; open_views; frame).
  assert (Hdelete : forall c product, framed (ShopManagement.deleteClick c product))
    by (intros c product; open_views; frame).
  split; [intros; apply Hhome|].
  split; [intros; apply Hbuyer|].
  split; [intros; apply Hseller|].
  split; [intros; apply Hfetch|].
  split; [intros; apply Hcreate|].
  split; [intros; apply Hupdate|].
  split; [intros; apply Hadd|].
  split; [intros; apply Hsave|].
  intros; apply Hdelete.
Qed.

End Frame.

(** ** What the home view sends *)

Section Sending.

Variable Q : Api.body -> Prop.

Lemma sends_only_ret {S A} (a : A) : sends_only Q (mret a : M S A).
Proof. intros s w Hw. exact Hw. Qed.

Lemma sends_only_bind {S A B} (m : M S A) (k : A -> M S B) :
  sends_only Q m -> (forall a, sends_only Q (k a)) -> sends_only Q (m ≫= k).
Proof.
  intros Hm Hk s w Hw. specialize (Hm s w Hw).
  unfold mbind, M_bind, bind, world_of in *.
  destruct (m s w) as [[[a|e] s'] w']; simpl in *.
  - apply Hk, Hm.
  - exact Hm.
Qed.

Lemma sends_only_try_catch {S A} (body : M S A) handler :
  sends_only Q body -> (forall e, sends_only Q (handler e)) ->
  sends_only Q (try_catch body handler).
Proof.
  intros Hb Hh s w Hw. specialize (Hb s w Hw).
  unfold try_catch, world_of in *.
  destruct (body s w) as [[[a|e] s'] w']; simpl in *.
  - exact Hb.
  - apply Hh, Hb.
Qed.

Lemma sends_only_try_catch_finally {S A} (body : M S A) handler final :
  sends_only Q body -> (forall e, sends_only Q (handler e)) -> sends_only Q final ->
  sends_only Q (try_catch_finally body handler final).
Proof.
  intros Hb Hh Hf s w Hw. specialize (Hb s w Hw).
  unfold try_catch_finally, world_of in *.
  destruct (body s w) as [[[a|e] s1] w1]; simpl in *.
  - specialize (Hf s1 w1 Hb). unfold world_of in Hf.
    destruct (final s1 w1) as [[[?|?] s2] w2]; exact Hf.
  - specialize (Hh e s1 w1 Hb). unfold world_of in Hh.
    destruct (handler e s1 w1) as [[o s2] w2]; simpl in *.
    specialize (Hf s2 w2 Hh). unfold world_of in Hf.
    destruct (final s2 w2) as [[[?|?] s3] w3]; exact Hf.
Qed.

Lemma sends_only_emit {S} (e : event) :
  (forall c, e <> Request c) -> sends_only Q (emit e : M S unit).
Proof.
  intros He s w Hw. unfold emit, record, world_of. simpl.
  rewrite requests_snoc_other by exact He. exact Hw.
Qed.

Lemma sends_only_set {S} (field : string) (f : S -> S) : sends_only Q (set field f).
Proof.
  intros s w Hw. unfold set, record, world_of. simpl.
  rewrite requests_snoc_other by discriminate. exact Hw.
Qed.

Lemma sends_only_send {S A} (answer : Backend -> nat -> Api.config -> result A)
  (c : Api.config) :
  Q (Api.data c) -> sends_only Q (send answer c : M S A).
Proof.
  intros Hc s w Hw. unfold send, world_of, record.
  destruct (answer _ _ _); simpl; rewrite requests_app; apply Forall_app;
    (split; [exact Hw|]); repeat constructor; rewrite interceptor_data; exact Hc.
Qed.

Lemma sends_only_getWorld {S} : sends_only Q (getWorld : M S world).
Proof. intros s w Hw. exact Hw. Qed.

Lemma sends_only_getState {S} : sends_only Q (getState : M S S).
Proof. intros s w Hw. exact Hw. Qed.

End Sending.

Section HomeSends.

(** The rules above, applied down a handler that sends no review. *)
Ltac sending :=
  repeat first
    [ apply sends_only_bind; [|intros ?]
    | apply sends_only_try_catch_finally; [| intros ? |]
    | apply sends_only_try_catch; [| intros ?]
    | apply sends_only_ret
    | apply sends_only_getWorld
    | apply sends_only_getState
    | apply sends_only_emit; discriminate
    | apply sends_only_set
    | apply sends_only_send; exact I
    | match goal with
      | |- sends_only _ (match ?x with _ => _ end) => destruct x
      | |- sends_only _ (if ?x then _ else _) => destruct x
      end ].

Ltac open_home :=
  unfold Home.handleUseMyLocation, Home.fetchNearbyShops, Home.fetchShops,
    Home.handleShopClick, shopAPI.getShops, reviewAPI.getReviews, reviewAPI.addReview,
    Home.setShops, Home.setIsLoading, Home.setSearchQuery, Home.setLocationQuery,
    Home.setSelectedShop, Home.setReviews, Home.setReviewText, Home.setRating,
    Home.setIsSubmittingReview, toast_error, toast_success, navigate.

Lemma handleSubmitReview_sends_long_reviews (c : Home.State) :
  sends_only reviewLongEnough (Home.handleSubmitReview c).
Proof.
  unfold Home.handleSubmitReview. open_home.
  apply sends_only_bind; [apply sends_only_getWorld | intros w].
  destruct (negb (isAuthenticated w)); [sending|].
  destruct (Home.selectedShop c) as [shop|], (user w) as [u|]; try (sending; fail).
  destruct (Nat.ltb_spec (JS.length (JS.trim (Home.reviewText c))) 10) as [Hlt|Hge];
    [sending|].
  sending. apply sends_only_send. exact Hge.
Qed.

Lemma handler_sends_long_reviews (c : Home.State) (a : Home.action) :
  sends_only reviewLongEnough (Home.handler c a).
Proof.
  destruct a; simpl; open_home.
  7:{ apply sends_only_bind; [apply sends_only_getWorld | intros w].
      destruct (_ && _); [apply handleSubmitReview_sends_long_reviews | sending]. }
  all: sending.
Qed.

Lemma session_sends_long_reviews (acts : list Home.action) :
  sends_only reviewLongEnough (Home.session acts).
Proof.
  induction acts as [|a acts IH]; simpl.
  - apply sends_only_ret.
  - apply sends_only_bind; [|intros _; exact IH].
    apply sends_only_try_catch; [|intros _; apply sends_only_ret].
    intros s w Hw. unfold Home.dispatch. apply handler_sends_long_reviews, Hw.
Qed.

(** Whatever the visitor does on the home view and whatever the
    backend answers, no review leaves the page with a comment of fewer
    than 10 characters: the comment sent is the trimmed text, and the
    handler turns shorter ones down. *)
Theorem reviews_sent_are_long_enough storage authenticated u b (acts : list Home.action) :
  let r := (Home.mount;; Home.session acts) Home.initial (page storage authenticated u b) in
  Forall (fun c => reviewLongEnough (Api.data c)) (requests (trace (world_of r))).
Proof.
  cbv zeta.
  apply (sends_only_bind reviewLongEnough Home.mount (fun _ => Home.session acts)).
  - unfold Home.mount. open_home. sending.
  - intros _. apply session_sends_long_reviews.
  - constructor.
Qed.

(** The search box filters on the client and the location box on the
    backend: typing a search text sends nothing and leaves the fetched
    list as it is, while typing a location sends one GET /shop whose
    query is that location (no query when the box is emptied). *)
Theorem search_is_local_location_is_fetched (c s : Home.State) (w : world) (text : string) :
  (let r := Home.handler c (Home.TypeSearch text) s w in
   added w r = [SetState "searchQuery"]
   /\ Home.searchQuery (state_of r) = text
   /\ Home.shops (state_of r) = Home.shops s)
  /\ (let r := Home.handler c (Home.TypeLocation text) s w in
      requests (added w r)
      = [Api.interceptor (localStorage w)
           (Api.get "/shop" (Api.getShops_params (Some text) None None))]
      /\ Home.locationQuery (state_of r) = text
      /\ Home.searchQuery (state_of r) = Home.searchQuery s
      /\ Api.getShops_params (Some text) None None !! "location"
         = if JS.truthyString text then Some (Api.Str text) else None).
Proof.
  split; cbv zeta; simpl; open_home;
    unfold mbind, M_bind, bind, getState, try_catch_finally, set, emit, send, record,
      state_of.
  - cbn [fst snd]. split; [|split; reflexivity].
    apply added_app. reflexivity.
  - cbn -[Api.interceptor Api.getShops_params added].
    rewrite !requests_after_busy_flag.
    destruct (shops _ _ _); cbn -[Api.interceptor Api.getShops_params added];
      (erewrite added_app
         by (unfold world_of; cbn [snd trace]; rewrite <- ?app_assoc; reflexivity));
      repeat split; destruct (JS.truthyString text); reflexivity.
Qed.

End HomeSends.

(** ** The added properties at sample inputs *)

Lemma rejected_review_keeps_the_form_witness :
  let c := Sample.reviewing "Lovely shop, fresh tea." (Some Sample.corner) in
  let w := page {[ "token" := "buyer" ]} true (Some Sample.buyer) Sample.rejecting in
  (10 <= JS.length (JS.trim (Home.reviewText c)))%nat
  /\ Home.reviewText (state_of (Home.handleSubmitReview c c w)) = "Lovely shop, fresh tea."
  /\ Home.rating (state_of (Home.handleSubmitReview c c w)) = 4%float.
Proof.
  cbv zeta.
  assert (Hlong : (10 <= JS.length (JS.trim "Lovely shop, fresh tea."))%nat)
    by (vm_compute; lia).
  split; [exact Hlong|].
  destruct (rejected_review_keeps_the_form
              (Sample.reviewing "Lovely shop, fresh tea." (Some Sample.corner))
              (Sample.reviewing "Lovely shop, fresh tea." (Some Sample.corner))
              (page {[ "token" := "buyer" ]} true (Some Sample.buyer) Sample.rejecting)
              Sample.corner Sample.buyer Sample.denied
              eq_refl eq_refl eq_refl Hlong eq_refl) as (Htext & Hrating & _).
  split; [exact Htext | exact Hrating].
Defined.


Lemma added_product_clears_the_form_witness :
  ShopManagement.productName
    (state_of (ShopManagement.handleAddProduct (H := Sample.runtime)
                 Sample.managing Sample.managing Sample.loggedIn)) = ""
  /\ ShopManagement.productPrice
       (state_of (ShopManagement.handleAddProduct (H := Sample.runtime)
                    Sample.managing Sample.managing Sample.loggedIn)) = "".
Proof.
  destruct (added_product_clears_the_form (H := Sample.runtime)
              Sample.managing Sample.managing Sample.loggedIn Sample.corner
              eq_refl ltac:(vm_compute; discriminate) ltac:(discriminate)
              ltac:(vm_compute; discriminate) eq_refl eq_refl)
    as (_ & _ & Hname & Hprice & _).
  split; [exact Hname | exact Hprice].
Defined.

Lemma updated_product_closes_the_edit_witness :
  ShopManagement.editingProduct
    (state_of (ShopManagement.handleUpdateProduct (H := Sample.runtime)
                 Sample.managing Sample.managing Sample.loggedIn)) = None.
Proof.
  destruct (updated_product_closes_the_edit (H := Sample.runtime)
              Sample.managing Sample.managing Sample.loggedIn Sample.corner
              Sample.coffee "p2"
              eq_refl eq_refl eq_refl ltac:(discriminate)
              ltac:(vm_compute; discriminate) ltac:(discriminate)
              ltac:(vm_compute; discriminate) eq_refl eq_refl)
    as (_ & Hclosed & _).
  exact Hclosed.
Defined.

Lemma edit_then_save_sends_the_product_witness :
  let opened :=
    ShopManagement.startEditingProduct (fun _ => "12.5") Sample.coffee
      Sample.managing Sample.loggedIn in
  map (fun c => (Api.method c, Api.url c, Api.data c))
    (firstn 1 (requests (added (world_of opened)
       (ShopManagement.handleUpdateProduct (H := Sample.runtime)
          (state_of opened) (state_of opened) (world_of opened)))))
  = [(Api.PUT, "/shop/s1/products/p2",
      Api.NewProduct
        {| Product._id := None; Product.name := "Coffee"; Product.price := 12.5;
           Product.category := "Drinks" |})].
Proof.
  cbv zeta.
  pose proof (edit_then_save_sends_the_product (H := Sample.runtime)
                (fun _ => "12.5") Sample.managing Sample.loggedIn Sample.corner
                Sample.coffee "p2"
                eq_refl eq_refl ltac:(discriminate) ltac:(discriminate) eq_refl
                ltac:(discriminate) eq_refl ltac:(discriminate) eq_refl eq_refl eq_refl)
    as Hsent.
  cbv zeta in Hsent.
  destruct (requests _) as [|sent rest]; [discriminate|].
  injection Hsent as ->. reflexivity.
Defined.

Lemma empty_search_shows_everything_witness :
  Home.render (Sample.reviewing "" None) = Grid [Sample.corner; Sample.bakery].
Proof.
  exact (empty_search_shows_everything (Sample.reviewing "" None) eq_refl eq_refl).
Defined.

Lemma filled_stars_count_witness :
  nth_error Home.stars 2 = Some 3%float
  /\ Home.filledStars 3 = [1; 2; 3]%float.
Proof.
  split; [reflexivity|].
  exact (proj1 (filled_stars_count 2 3%float eq_refl)).
Defined.
